(** * Trend-credibility dashboard (app.js): a shallow embedding and its properties

    The script renders the answer of [/api/analyze] into a page: four summary
    counters, a row of source-health pills, the result cards (sectioned by
    category in the "all" view) and a status line.  The embedding follows
    the script function by function and keeps its names.  (The repository
    also holds an earlier revision of the script, without the categories
    and the source health; what is embedded here is app.js.)

    Conventions.
    - A JavaScript string is a [string]; the characters are the bytes of its
      UTF-8 encoding.  The script only searches for ASCII patterns, and
      UTF-8 is self-synchronising, so [startsWith], [includes] and [replace]
      agree with their UTF-16 counterparts.
    - A JavaScript number is a binary64 [float] (the kernel's primitive
      floats), so [+] and [/] round exactly as they do in the browser.
    - The page (the DOM nodes the script holds) is a record; the script's
      writes are functions on it, and code that can throw runs in a small
      state-and-exception monad.  The page keeps the numbers written to it
      as numbers: their printing ([String], [toFixed(1)], the template
      literals) is not modelled.
    - The page's markup is not among the sources.  The one thing the
      statements need of it is what the limit control can hold; that is
      taken from the spec's description of the control ([NumberControl]).
    - [runAnalysis] is split where it awaits: [runAnalysis_begin] runs up to
      the call of [fetch], [runAnalysis_settle] from the point the answer is
      there.  Its two awaits ([fetch], then [response.json()]) count as one:
      the script writes nothing between them. *)

From Stdlib Require Import List String Ascii Bool Arith ZArith Lia.
From Stdlib Require Import Permutation.
From Stdlib Require Import Floats.
From Stdlib Require Import Uint63.
From Stdlib Require Import DecimalString.
From Stdlib Require DecimalNat.
Import ListNotations.

Local Open Scope string_scope.
Local Open Scope list_scope.

(** ** JavaScript primitives used by the script *)

Module Js.

(** [a || b] on an optional string: [undefined], [null] and the empty
    string are falsy. *)
Definition or_else (a : option string) (b : string) : string :=
  match a with
  | Some s => if s =? "" then b else s
  | None => b
  end.

(** [s.startsWith(p)] *)
Fixpoint startsWith (s p : string) : bool :=
  match p, s with
  | EmptyString, _ => true
  | String _ _, EmptyString => false
  | String b p', String a s' => Ascii.eqb a b && startsWith s' p'
  end.

(** [s.includes(p)] *)
Fixpoint includes (s p : string) : bool :=
  startsWith s p ||
  match s with
  | EmptyString => false
  | String _ s' => includes s' p
  end.

(** [s.slice(n)] for [0 <= n] *)
Fixpoint drop (n : nat) (s : string) : string :=
  match n, s with
  | O, _ => s
  | S _, EmptyString => EmptyString
  | S n', String _ s' => drop n' s'
  end.

(** [s.replace(p, r)] with a string pattern: only the first occurrence of
    [p] is replaced ([r] holds no [$] pattern in the script). *)
Fixpoint replace (s p r : string) : string :=
  if startsWith s p then r ++ drop (String.length p) s
  else match s with
       | EmptyString => EmptyString
       | String a s' => String a (replace s' p r)
       end.

(** [s.replaceAll(p, r)] for a one-character pattern; the script never
    calls it, it serves to state what replacing every underscore means. *)
Fixpoint replaceAll_char (s : string) (p : ascii) (r : string) : string :=
  match s with
  | EmptyString => EmptyString
  | String a s' =>
      (if Ascii.eqb a p then r else String a EmptyString)
        ++ replaceAll_char s' p r
  end.

(** The number of a length: array lengths stay below [2^32], where the
    conversion is exact. *)
Definition of_length (n : nat) : float :=
  PrimFloat.of_uint63 (Uint63.of_Z (Z.of_nat n)).

(** [arr.slice(0, n)] *)
Definition slice0 {A : Type} (n : nat) (l : list A) : list A := firstn n l.

End Js.

(** ** Data model: what the backend sends *)

Record TrendRef := {
  platform : string;
  title : string;
  url : string;
  category : option string   (* [None]: the property is absent *)
}.

Record EvidenceArticle := {
  source : option string;
  article_url : string
}.

Record EvidenceSummary := {
  credible_hits : float;
  source_diversity : float;
  confidence : float;
  articles : list EvidenceArticle
}.

(** One element of [data.results].  [T] is the type of its [trend]
    property: [TrendRef] for an [AnalysisResult], [option TrendRef] for an
    element as it comes out of [response.json()], which may lack it. *)
Record Result (T : Type) := {
  trend : T;
  verdict : string;
  fake_probability : float;
  spread_index : float;
  credibility_score : float;
  reasons : list string;
  evidence : EvidenceSummary
}.

Arguments trend {T} _.
Arguments verdict {T} _.
Arguments fake_probability {T} _.
Arguments spread_index {T} _.
Arguments credibility_score {T} _.
Arguments reasons {T} _.
Arguments evidence {T} _.

Abbreviation AnalysisResult := (Result TrendRef).
Abbreviation JsonResult := (Result (option TrendRef)).

(** An [AnalysisResult] as an element of the parsed payload. *)
Definition received (r : AnalysisResult) : JsonResult :=
  {| trend := Some (trend r);
     verdict := verdict r;
     fake_probability := fake_probability r;
     spread_index := spread_index r;
     credibility_score := credibility_score r;
     reasons := reasons r;
     evidence := evidence r |}.

(** ** ResultAggregator: the numbers [renderSummary] computes *)

Record DashboardSummary := {
  total : nat;
  misleading_count : nat;
  real_count : nat;
  avg_fake_probability : float
}.

Section Aggregator.

Context {T : Type}.

(** [results.reduce((sum, r) => sum + r.fake_probability, 0)] *)
Definition sum_fake (results : list (Result T)) : float :=
  fold_left (fun sum r => PrimFloat.add sum (fake_probability r)) results 0%float.

Definition count_verdict (v : string) (results : list (Result T)) : nat :=
  List.length (filter (fun r => verdict r =? v) results).

(** The four locals of [renderSummary]: [total], [misleading], [real],
    [avgFake]. *)
Definition summarize (results : list (Result T)) : DashboardSummary :=
  let total := List.length results in
  let misleading := count_verdict "Likely Misleading" results in
  let real := count_verdict "Likely Real" results in
  let avgFake :=
    if Nat.eqb total 0 then 0%float
    else PrimFloat.div (sum_fake results) (Js.of_length total) in
  {| total := total;
     misleading_count := misleading;
     real_count := real;
     avg_fake_probability := avgFake |}.

End Aggregator.

(** ** [Number(text)]: StringToNumber *)

Module JsNumber.

Definition bytes (l : list nat) : string :=
  fold_right (fun n s => String (ascii_of_nat n) s) EmptyString l.

(** StrWhiteSpaceChar: the white space and line terminator code points, in
    UTF-8: TAB, LF, VT, FF, CR, SP, U+00A0, U+1680, U+2000..U+200A,
    U+2028, U+2029, U+202F, U+205F, U+3000, U+FEFF. *)
Definition StrWhiteSpaceChar : list string :=
  map bytes
    ([[9]; [10]; [11]; [12]; [13]; [32]; [194; 160]; [225; 154; 128]]
       ++ map (fun n => [226; 128; n]) (seq 128 11)
       ++ [[226; 128; 168]; [226; 128; 169]; [226; 128; 175];
           [226; 129; 159]; [227; 128; 128]; [239; 187; 191]]).

Definition rev_string (s : string) : string :=
  string_of_list_ascii (rev (list_ascii_of_string s)).

(** One white space character removed from the front, if there is one. *)
Definition strip_one (ws : list string) (s : string) : option string :=
  match find (fun w => Js.startsWith s w) ws with
  | Some w => Some (Js.drop (String.length w) s)
  | None => None
  end.

Fixpoint strip (fuel : nat) (ws : list string) (s : string) : string :=
  match fuel with
  | O => s
  | S fuel' =>
      match strip_one ws s with
      | Some s' => strip fuel' ws s'
      | None => s
      end
  end.

Definition trim (s : string) : string :=
  let s1 := strip (String.length s) StrWhiteSpaceChar s in
  rev_string (strip (String.length s1) (map rev_string StrWhiteSpaceChar) (rev_string s1)).

(** The value of a digit in a base up to 16, if it is one. *)
Definition digit (base : Z) (a : ascii) : option Z :=
  (let n := Z.of_nat (nat_of_ascii a) in
   let v :=
     if (48 <=? n) && (n <=? 57) then Some (n - 48)
     else if (97 <=? n) && (n <=? 102) then Some (n - 87)
     else if (65 <=? n) && (n <=? 70) then Some (n - 55)
     else None in
   match v with
   | Some d => if d <? base then Some d else None
   | None => None
   end)%Z.

(** The longest prefix of digits: its value, its length, and the rest. *)
Fixpoint digits (base : Z) (acc : Z) (len : nat) (s : string) : Z * nat * string :=
  match s with
  | EmptyString => (acc, len, s)
  | String a s' =>
      match digit base a with
      | Some d => digits base (acc * base + d)%Z (S len) s'
      | None => (acc, len, s)
      end
  end.

(** A numeric literal's mathematical value: a signed infinity, or
    [(-1)^sign * mantissa * 10^exponent]. *)
Inductive MV :=
| MV_infinity (negative : bool)
| MV_decimal (negative : bool) (mantissa : Z) (exponent : Z).

(** ExponentPart (optional), then the end of the text. *)
Definition exponent_part (s : string) : option Z :=
  match s with
  | EmptyString => Some 0%Z
  | String c s1 =>
      if Ascii.eqb c "e" || Ascii.eqb c "E" then
        let '(negative, s2) :=
          match s1 with
          | String "+" t => (false, t)
          | String "-" t => (true, t)
          | _ => (false, s1)
          end in
        match digits 10 0 0 s2 with
        | (_, O, _) => None
        | (e, S _, EmptyString) => Some (if negative then (- e)%Z else e)
        | _ => None
        end
      else None
  end.

(** StrUnsignedDecimalLiteral *)
Definition unsigned_decimal (negative : bool) (s : string) : option MV :=
  if s =? "Infinity" then Some (MV_infinity negative)
  else
    let '(int, n_int, s1) := digits 10 0 0 s in
    let '(mantissa, n_frac, s2) :=
      match s1 with
      | String "." t => digits 10 int 0 t
      | _ => (int, O, s1)
      end in
    if Nat.eqb (n_int + n_frac) 0 then None
    else
      match exponent_part s2 with
      | Some e => Some (MV_decimal negative mantissa (e - Z.of_nat n_frac))
      | None => None
      end.

(** NonDecimalIntegerLiteral: [0x], [0o], [0b] in either case, unsigned. *)
Definition non_decimal (s : string) : option (option MV) :=
  match s with
  | String "0" (String c t) =>
      let base :=
        if Ascii.eqb c "x" || Ascii.eqb c "X" then Some 16%Z
        else if Ascii.eqb c "o" || Ascii.eqb c "O" then Some 8%Z
        else if Ascii.eqb c "b" || Ascii.eqb c "B" then Some 2%Z
        else None in
      match base with
      | Some b =>
          Some match digits b 0 0 t with
               | (_, O, _) => None
               | (v, S _, EmptyString) => Some (MV_decimal false v 0)
               | _ => None
               end
      | None => None
      end
  | _ => None
  end.

(** StringNumericLiteral: [None] when the text is not one. *)
Definition numeric_literal (text : string) : option MV :=
  let s := trim text in
  if s =? "" then Some (MV_decimal false 0 0)
  else
    match non_decimal s with
    | Some r => r
    | None =>
        match s with
        | String "+" t => unsigned_decimal false t
        | String "-" t => unsigned_decimal true t
        | _ => unsigned_decimal false s
        end
    end.

(** The binary64 number nearest to [num / den] (ties to even), for
    positive [num] and [den]. *)
Definition round_ratio (negative : bool) (num den : Z) : spec_float :=
  let '(m, e, l) := SFdiv_core_binary prec emax num 0 den 0 in
  binary_round_aux prec emax negative m e l.

Definition round (v : MV) : float :=
  SF2Prim
    match v with
    | MV_infinity negative => S754_infinity negative
    | MV_decimal negative 0 _ => S754_zero negative
    | MV_decimal negative m e =>
        match e with
        | Zneg k => round_ratio negative m (Z.pow 10 (Zpos k))
        | _ => round_ratio negative (m * Z.pow 10 e) 1
        end
    end.

(** [Number(text)] *)
Definition StringToNumber (text : string) : float :=
  match numeric_literal text with
  | Some v => round v
  | None => PrimFloat.nan
  end.

End JsNumber.

(** ** Categories and the module-level constants *)

Record Category := { id : string; label : string }.

Definition CATEGORIES : list Category :=
  [ {| id := "all"; label := "All" |};
    {| id := "local"; label := "Local" |};
    {| id := "india"; label := "India" |};
    {| id := "world"; label := "World" |};
    {| id := "entertainment"; label := "Entertainment" |};
    {| id := "health"; label := "Health" |};
    {| id := "trending"; label := "Trending" |};
    {| id := "sports"; label := "Sports" |};
    {| id := "esports"; label := "Esports" |};
    {| id := "food"; label := "Food" |};
    {| id := "events"; label := "Events" |} ].

(** [CATEGORY_LABELS[key]]: the object built from [CATEGORIES], looked up
    among its own properties.  The names every object inherits
    ("constructor", "toString", "__proto__", ...) are not modelled: for
    such a key the script finds a function or an object where this lookup
    finds nothing.  The lookup is exact for the eleven ids and for any
    other key that is no such name. *)
Definition CATEGORY_LABELS (key : string) : option string :=
  option_map label (find (fun c => id c =? key) CATEGORIES).

Definition verdictClass (verdict : string) : string :=
  if verdict =? "Likely Real" then "real"
  else if verdict =? "Likely Misleading" then "fake"
  else "warn".

(** ** The page *)

Record Anchor := {
  href : string;
  target : string;
  rel : string;
  anchor_text : string
}.

(** What [buildCard] writes into a clone of the card template.  The three
    scores are kept as numbers: the script shows each as a bar width and,
    through [toFixed(1)], as a text. *)
Record Card := {
  card_platform : string;
  card_category : option string;
  card_title : string;
  card_verdict : string;
  card_verdict_class : string;
  card_fake : float;
  card_spread : float;
  card_credibility : float;
  card_origin_link : string;
  card_credible_hits : float;
  card_source_diversity : float;
  card_confidence_percent : float;
  card_reasons : list string;
  card_evidence_links : list Anchor
}.

(** A child of [resultsEl]: a category section (heading and cards) in the
    "all" view, a bare card otherwise. *)
Inductive Node :=
| SectionNode (heading : string) (cards : list Card)
| CardNode (card : Card).

Record Pill := { pill_className : string; pill_text : string }.

Record TabButton := {
  tab_className : string;
  tab_text : string;
  tab_category : string   (* the [category.id] its click handler closes over *)
}.

Record Page := {
  status_text : string;            (* statusEl.textContent *)
  status_color : string;           (* statusEl.style.color *)
  refreshBtn_disabled : bool;
  limitEl_value : string;
  categoryTabsEl : list TabButton;
  sourceHealthEl : list Pill;
  summaryEls : DashboardSummary;   (* totalTrendsEl, misleadingCountEl, realCountEl, avgFakeEl *)
  resultsEl : list Node;
  selectedCategory : string        (* the script's [let selectedCategory] *)
}.

Definition with_status (text color : string) (p : Page) : Page :=
  {| status_text := text; status_color := color;
     refreshBtn_disabled := refreshBtn_disabled p;
     limitEl_value := limitEl_value p;
     categoryTabsEl := categoryTabsEl p;
     sourceHealthEl := sourceHealthEl p;
     summaryEls := summaryEls p;
     resultsEl := resultsEl p;
     selectedCategory := selectedCategory p |}.

Definition with_disabled (b : bool) (p : Page) : Page :=
  {| status_text := status_text p; status_color := status_color p;
     refreshBtn_disabled := b;
     limitEl_value := limitEl_value p;
     categoryTabsEl := categoryTabsEl p;
     sourceHealthEl := sourceHealthEl p;
     summaryEls := summaryEls p;
     resultsEl := resultsEl p;
     selectedCategory := selectedCategory p |}.

Definition with_limit (v : string) (p : Page) : Page :=
  {| status_text := status_text p; status_color := status_color p;
     refreshBtn_disabled := refreshBtn_disabled p;
     limitEl_value := v;
     categoryTabsEl := categoryTabsEl p;
     sourceHealthEl := sourceHealthEl p;
     summaryEls := summaryEls p;
     resultsEl := resultsEl p;
     selectedCategory := selectedCategory p |}.

Definition with_tabs (tabs : list TabButton) (p : Page) : Page :=
  {| status_text := status_text p; status_color := status_color p;
     refreshBtn_disabled := refreshBtn_disabled p;
     limitEl_value := limitEl_value p;
     categoryTabsEl := tabs;
     sourceHealthEl := sourceHealthEl p;
     summaryEls := summaryEls p;
     resultsEl := resultsEl p;
     selectedCategory := selectedCategory p |}.

Definition with_pills (pills : list Pill) (p : Page) : Page :=
  {| status_text := status_text p; status_color := status_color p;
     refreshBtn_disabled := refreshBtn_disabled p;
     limitEl_value := limitEl_value p;
     categoryTabsEl := categoryTabsEl p;
     sourceHealthEl := pills;
     summaryEls := summaryEls p;
     resultsEl := resultsEl p;
     selectedCategory := selectedCategory p |}.

Definition with_summary (s : DashboardSummary) (p : Page) : Page :=
  {| status_text := status_text p; status_color := status_color p;
     refreshBtn_disabled := refreshBtn_disabled p;
     limitEl_value := limitEl_value p;
     categoryTabsEl := categoryTabsEl p;
     sourceHealthEl := sourceHealthEl p;
     summaryEls := s;
     resultsEl := resultsEl p;
     selectedCategory := selectedCategory p |}.

Definition with_results (nodes : list Node) (p : Page) : Page :=
  {| status_text := status_text p; status_color := status_color p;
     refreshBtn_disabled := refreshBtn_disabled p;
     limitEl_value := limitEl_value p;
     categoryTabsEl := categoryTabsEl p;
     sourceHealthEl := sourceHealthEl p;
     summaryEls := summaryEls p;
     resultsEl := nodes;
     selectedCategory := selectedCategory p |}.

Definition with_selected (c : string) (p : Page) : Page :=
  {| status_text := status_text p; status_color := status_color p;
     refreshBtn_disabled := refreshBtn_disabled p;
     limitEl_value := limitEl_value p;
     categoryTabsEl := categoryTabsEl p;
     sourceHealthEl := sourceHealthEl p;
     summaryEls := summaryEls p;
     resultsEl := resultsEl p;
     selectedCategory := c |}.

(** ** Statements that may throw: state and exception *)

Inductive Completion (A : Type) :=
| Normal (value : A)
| Throw (message : string).

Arguments Normal {A} _.
Arguments Throw {A} _.

Definition Script (A : Type) : Type := Page -> Completion A * Page.

Definition ret {A : Type} (a : A) : Script A := fun p => (Normal a, p).

Definition throw {A : Type} (message : string) : Script A :=
  fun p => (Throw message, p).

Definition bind {A B : Type} (m : Script A) (k : A -> Script B) : Script B :=
  fun p =>
    match m p with
    | (Normal a, p') => k a p'
    | (Throw message, p') => (Throw message, p')
    end.

(** A write to the page. *)
Definition write (f : Page -> Page) : Script unit := fun p => (Normal tt, f p).

Definition read {A : Type} (f : Page -> A) : Script A := fun p => (Normal (f p), p).

Declare Scope script_scope.
Delimit Scope script_scope with script.
Notation "x <- m ;; k" := (bind m (fun x => k))
  (at level 61, m at next level, right associativity) : script_scope.
Notation "m ;; k" := (bind m (fun _ => k))
  (at level 61, right associativity) : script_scope.

Local Open Scope script_scope.

(** [xs.forEach(body)] *)
Fixpoint forEach {A : Type} (xs : list A) (body : A -> Script unit) : Script unit :=
  match xs with
  | [] => ret tt
  | x :: xs' => body x ;; forEach xs' body
  end.

(** A loop that threads a local through its iterations. *)
Fixpoint foldM {A S : Type} (body : S -> A -> Script S) (xs : list A) (s : S) : Script S :=
  match xs with
  | [] => ret s
  | x :: xs' => s' <- body s x ;; foldM body xs' s'
  end.

(** [xs.forEach(x => parent.appendChild(build(x)))] into a fresh parent. *)
Fixpoint mapM {A B : Type} (build : A -> Script B) (xs : list A) : Script (list B) :=
  match xs with
  | [] => ret []
  | x :: xs' => y <- build x ;; ys <- mapM build xs' ;; ret (y :: ys)
  end.

(** ** The script's functions *)

Definition setStatus (text : string) (isError : bool) : Page -> Page :=
  with_status text (if isError then "#8d2519" else "#5d6b72").

Definition clearResults : Page -> Page := with_results [].

Definition makeEvidenceLink (article : EvidenceArticle) : Anchor :=
  {| href := article_url article;
     target := "_blank";
     rel := "noreferrer";
     anchor_text := Js.or_else (source article) "Source" |}.

Definition renderCategoryTabs (p : Page) : Page :=
  with_tabs
    (map (fun category =>
            {| tab_className :=
                 "tab-btn " ++ (if selectedCategory p =? id category then "active" else "");
               tab_text := label category;
               tab_category := id category |})
         CATEGORIES)
    p.

(** *** SourceHealthSummarizer *)

Record HealthPill := { pill_label : string; pill_ok : bool }.

(** The two values [renderSourceHealth] computes for one entry. *)
Definition health_pill (entry : string * string) : HealthPill :=
  let '(source, status) := entry in
  {| pill_label := Js.replace source "_" " " ++ ": " ++ status;
     pill_ok := Js.startsWith status "ok" || Js.includes status "fallback" |}.

(** The entries are those of [Object.entries], in its order. *)
Definition summarizeHealth (sourceHealth : list (string * string)) : list HealthPill :=
  map health_pill sourceHealth.

(** The [span] created for one entry. *)
Definition pill_of (h : HealthPill) : Pill :=
  {| pill_className := "source-pill " ++ (if pill_ok h then "ok" else "warn");
     pill_text := pill_label h |}.

Definition appendPill (h : HealthPill) (p : Page) : Page :=
  with_pills (sourceHealthEl p ++ [pill_of h]) p.

Definition renderSourceHealth (sourceHealth : list (string * string)) (p : Page) : Page :=
  fold_left (fun p entry => appendPill (health_pill entry) p) sourceHealth (with_pills [] p).

(** *** ResultAggregator *)

Definition renderSummary {T : Type} (results : list (Result T)) : Page -> Page :=
  with_summary (summarize results).

(** *** Cards *)

(** The message of the [TypeError] of reading a property of [undefined]
    or [null] (the wording is the engine's). *)
Definition TypeError_reading (of_what property : string) : string :=
  "Cannot read properties of " ++ of_what ++ " (reading '" ++ property ++ "')".

(** [item.trend.<property>]: reading through a missing [trend] throws. *)
Definition trend_of (item : JsonResult) (property : string) : Script TrendRef :=
  match trend item with
  | Some t => ret t
  | None => throw (TypeError_reading "undefined" property)
  end.

(** [CATEGORY_LABELS[c] || c]; an absent [c] names no label and stays
    absent. *)
Definition category_text (c : option string) : option string :=
  match c with
  | Some k => Some (Js.or_else (CATEGORY_LABELS k) k)
  | None => None
  end.

(** The card of an item whose [trend] is [t]. *)
Definition card_of {T : Type} (t : TrendRef) (item : Result T) : Card :=
  {| card_platform := platform t;
     card_category := category_text (category t);
     card_title := title t;
     card_verdict := verdict item;
     card_verdict_class := verdictClass (verdict item);
     card_fake := fake_probability item;
     card_spread := spread_index item;
     card_credibility := credibility_score item;
     card_origin_link := url t;
     card_credible_hits := credible_hits (evidence item);
     card_source_diversity := source_diversity (evidence item);
     card_confidence_percent := PrimFloat.mul (confidence (evidence item)) 100;
     card_reasons := reasons item;
     card_evidence_links :=
       map makeEvidenceLink (Js.slice0 4 (articles (evidence item))) |}.

Definition buildCard (item : JsonResult) : Script Card :=
  t <- trend_of item "platform" ;;
  ret (card_of t item).

(** *** CategoryPartitioner *)

(** The local [groups]: a [Map] from category to the array of its items,
    in insertion order. *)
Section GroupMap.

Context {A : Type}.

Definition GroupMap : Type := list (string * list A).

Fixpoint Map_get (groups : GroupMap) (key : string) : option (list A) :=
  match groups with
  | [] => None
  | (k, v) :: rest => if k =? key then Some v else Map_get rest key
  end.

Definition Map_has (groups : GroupMap) (key : string) : bool :=
  match Map_get groups key with Some _ => true | None => false end.

Fixpoint Map_set (groups : GroupMap) (key : string) (value : list A) : GroupMap :=
  match groups with
  | [] => [(key, value)]
  | (k, v) :: rest =>
      if k =? key then (k, value) :: rest else (k, v) :: Map_set rest key value
  end.

(** [if (!groups.has(category)) groups.set(category, []);
     groups.get(category).push(item);] *)
Definition group_push (groups : GroupMap) (category : string) (item : A) : GroupMap :=
  let groups' := if Map_has groups category then groups else Map_set groups category [] in
  match Map_get groups' category with
  | Some items => Map_set groups' category (items ++ [item])
  | None => groups'
  end.

(** [groups.get(key) || []] *)
Definition Map_get_or_empty (groups : GroupMap) (key : string) : list A :=
  match Map_get groups key with Some items => items | None => [] end.

End GroupMap.

Arguments GroupMap : clear implicits.

(** [item.trend.category || "trending"] *)
Definition category_key (t : TrendRef) : string := Js.or_else (category t) "trending".

(** [CATEGORIES.filter((c) => c.id !== "all")] *)
Definition section_categories : list Category :=
  filter (fun c => negb (id c =? "all")) CATEGORIES.

Definition appendResult (n : Node) : Script unit :=
  write (fun p => with_results (resultsEl p ++ [n]) p).

(** The body of the grouping loop. *)
Definition group_item (groups : GroupMap JsonResult) (item : JsonResult)
  : Script (GroupMap JsonResult) :=
  t <- trend_of item "category" ;;
  ret (group_push groups (category_key t) item).

(** The body of the loop over the categories: a section is appended once
    its cards are built, and none for a category without items. *)
Definition append_section (groups : GroupMap JsonResult) (category : Category)
  : Script unit :=
  let items := Map_get_or_empty groups (id category) in
  if Nat.eqb (List.length items) 0 then ret tt
  else
    cards <- mapM buildCard items ;;
    appendResult (SectionNode (label category ++ " News") cards).

(** The body of the loop of the single-category view. *)
Definition append_card (item : JsonResult) : Script unit :=
  card <- buildCard item ;;
  appendResult (CardNode card).

Definition renderCards (results : list JsonResult) : Script unit :=
  write clearResults ;;
  selected <- read selectedCategory ;;
  if selected =? "all" then
    groups <- foldM group_item results [] ;;
    forEach section_categories (append_section groups)
  else
    forEach results append_card.

(** ** DashboardController: [runAnalysis] and the event handlers *)

(** [encodeURIComponent]: the unreserved characters stay, every other byte
    of the UTF-8 text becomes [%XX]. *)
Definition unreserved (a : ascii) : bool :=
  let n := nat_of_ascii a in
  (((65 <=? n) && (n <=? 90)) || ((97 <=? n) && (n <=? 122))
   || ((48 <=? n) && (n <=? 57)))%nat
  || existsb (Ascii.eqb a) ["-"; "_"; "."; "!"; "~"; "*"; "'"; "("; ")"]%char.

Definition hex_digit (n : nat) : ascii :=
  ascii_of_nat (if (n <? 10)%nat then 48 + n else 55 + n).

Fixpoint encodeURIComponent (s : string) : string :=
  match s with
  | EmptyString => EmptyString
  | String a s' =>
      (if unreserved a then String a EmptyString
       else
         let n := nat_of_ascii a in
         String "%" (String (hex_digit (n / 16)) (String (hex_digit (n mod 16)) EmptyString)))
        ++ encodeURIComponent s'
  end.

(** The request [fetch] is called with: the three holes of the template
    [/api/analyze?limit=${limit}&category=${...}${refreshParam}]. *)
Record Request := {
  query_limit : float;
  query_category : string;
  refreshParam : string
}.

(** *** The limit control

    The markup that declares the limit control is not among the sources.
    The spec has the limit taken from "a bounded user-editable control":
    that is HTML's number control ([<input type="number">] with [min] and
    [max]).  [NumberControl] holds what HTML defines for it: the valid
    floating-point numbers and the value sanitization algorithm. *)

Module NumberControl.

Definition ASCII_digit (c : ascii) : bool :=
  let n := nat_of_ascii c in ((48 <=? n) && (n <=? 57))%nat.

Definition digit_value (c : ascii) : Z := (Z.of_nat (nat_of_ascii c) - 48)%Z.

(** The series of ASCII digits a text begins with, and what follows it. *)
Fixpoint series (s : string) : list ascii * string :=
  match s with
  | EmptyString => ([], s)
  | String c s' =>
      if ASCII_digit c then let '(ds, rest) := series s' in (c :: ds, rest)
      else ([], s)
  end.

(** A series of digits, interpreted as base ten. *)
Definition base_ten (ds : list ascii) : Z :=
  fold_left (fun n c => n * 10 + digit_value c)%Z ds 0%Z.

(** Optionally, a [-]. *)
Definition minus_sign (s : string) : bool * string :=
  match s with
  | EmptyString => (false, s)
  | String c t => if Ascii.eqb c "-" then (true, t) else (false, s)
  end.

(** Optionally a [.] followed by a series of one or more digits: the
    digits (none without a point) and what follows; [None] when a point
    is not followed by a digit. *)
Definition fraction (s : string) : option (list ascii * string) :=
  match s with
  | EmptyString => Some ([], s)
  | String c t =>
      if Ascii.eqb c "." then
        match series t with
        | ([], _) => None
        | (d :: ds, rest) => Some (d :: ds, rest)
        end
      else Some ([], s)
  end.

(** Optionally [e] or [E], optionally a [-] or [+], and a series of one
    or more digits; then the end of the text.  Without it the exponent
    is zero. *)
Definition exponent (s : string) : option Z :=
  match s with
  | EmptyString => Some 0%Z
  | String c t =>
      if Ascii.eqb c "e" || Ascii.eqb c "E" then
        let '(negative, t') :=
          match t with
          | EmptyString => (false, t)
          | String d u =>
              if Ascii.eqb d "-" then (true, u)
              else if Ascii.eqb d "+" then (false, u)
              else (false, t)
          end in
        match series t' with
        | (d :: ds, EmptyString) =>
            Some (if negative then (- base_ten (d :: ds))%Z else base_ten (d :: ds))
        | _ => None
        end
      else None
  end.

(** One or both of a series of one or more digits and a fraction, then
    the exponent: the significand (the digits before and after the point)
    times ten to the exponent. *)
Definition unsigned_number (negative : bool) (s : string) : option JsNumber.MV :=
  let '(int, s2) := series s in
  match fraction s2 with
  | None => None
  | Some (frac, s3) =>
      if Nat.eqb (List.length int + List.length frac) 0 then None
      else
        match exponent s3 with
        | Some e =>
            Some (JsNumber.MV_decimal negative (base_ten (int ++ frac))
                                      (e - Z.of_nat (List.length frac)))
        | None => None
        end
  end.

(** Modelled from the spec: the texts a number control takes for a number
    (the control itself is declared in the markup, which is missing).  A
    valid floating-point number, and the number it represents; [None] for
    any other text.  A zero written with a [-] is the number zero. *)
Definition valid_floating_point_number (s : string) : option JsNumber.MV :=
  let '(negative, s1) := minus_sign s in unsigned_number negative s1.

(** Modelled from the spec: what the script reads as [limitEl.value] (the
    control is declared in the markup, which is missing).  It is the
    control's value after the value sanitization algorithm of a number
    control: the text the control was given when that is a valid
    floating-point number, and the empty text otherwise.  The bounds play
    no part in it: a number out of range stays the control's value. *)
Definition value_sanitization (text : string) : string :=
  match valid_floating_point_number text with
  | Some _ => text
  | None => ""
  end.

End NumberControl.

(** [Number(limitEl.value || 20)] *)
Definition limit_of (value : string) : float :=
  if value =? "" then 20%float else JsNumber.StringToNumber value.

(** The object [response.json()] yields, as far as the script reads it:
    [results] is absent or an array of results, each with or without its
    [trend]; [source_health] is absent or an object of texts.  Bodies of
    another shape ([results] that is no array, a [null] element) are not
    modelled. *)
Record Payload := {
  results : option (list JsonResult);
  source_health : option (list (string * string));
  generated_at : string   (* as [new Date(...).toLocaleString()] prints it *)
}.

(** How [response.json()] settles: it rejects, or yields [null] or an
    object. *)
Inductive Body :=
| NotJson (message : string)
| JsonNull
| JsonObject (data : Payload).

(** How [fetch] settles: it rejects, or yields a response. *)
Inductive FetchOutcome :=
| Rejected (message : string)
| Response (status : nat) (body : Body).

(** [response.ok] *)
Definition response_ok (status : nat) : bool :=
  ((200 <=? status) && (status <=? 299))%nat.

Definition decimal (n : nat) : string := NilEmpty.string_of_uint (Nat.to_uint n).

Definition or_empty {A : Type} (l : option (list A)) : list A :=
  match l with Some xs => xs | None => [] end.

(** [runAnalysis] up to its [await fetch(...)]: the page it leaves and the
    request it issues. *)
Definition runAnalysis_begin (forceRefresh : bool) (p : Page) : Page * Request :=
  let limit := limit_of (limitEl_value p) in
  let refresh := if forceRefresh then "&refresh=true" else "" in
  let p1 :=
    setStatus
      ("Analyzing "
         ++ Js.or_else (CATEGORY_LABELS (selectedCategory p)) (selectedCategory p)
         ++ " trends...")
      false p in
  let p2 := with_disabled true p1 in
  (p2, {| query_limit := limit;
          query_category := encodeURIComponent (selectedCategory p);
          refreshParam := refresh |}).

(** The rest of the [try] block, once [fetch] has settled. *)
Definition try_block (outcome : FetchOutcome) : Script unit :=
  match outcome with
  | Rejected message => throw message
  | Response status body =>
      if negb (response_ok status) then throw ("HTTP " ++ decimal status)
      else
        match body with
        | NotJson message => throw message
        | JsonNull => throw (TypeError_reading "null" "results")
        | JsonObject data =>
            write (renderSummary (or_empty (results data))) ;;
            write (renderSourceHealth (or_empty (source_health data))) ;;
            renderCards (or_empty (results data)) ;;
            write (setStatus ("Updated at " ++ generated_at data ++ ".") false)
        end
  end.

(** [runAnalysis] from the point [fetch] settles: [try], [catch],
    [finally]. *)
Definition runAnalysis_settle (outcome : FetchOutcome) (p : Page) : Page :=
  let caught :=
    match try_block outcome p with
    | (Normal _, p') => p'
    | (Throw message, p') => setStatus ("Failed to load analysis: " ++ message) true p'
    end in
  with_disabled false caught.

(** The running application: the page, the requests not yet settled
    (oldest first) and every request issued so far. *)
Record App := {
  page : Page;
  in_flight : list Request;
  issued : list Request
}.

Definition runAnalysis (forceRefresh : bool) (a : App) : App :=
  let '(p, request) := runAnalysis_begin forceRefresh (page a) in
  {| page := p;
     in_flight := in_flight a ++ [request];
     issued := issued a ++ [request] |}.

Definition on_page (f : Page -> Page) (a : App) : App :=
  {| page := f (page a); in_flight := in_flight a; issued := issued a |}.

Fixpoint remove_nth {A : Type} (n : nat) (l : list A) : list A :=
  match n, l with
  | _, [] => []
  | O, _ :: l' => l'
  | S n', x :: l' => x :: remove_nth n' l'
  end.

(** The last three lines of the script, run once on a freshly loaded
    page. *)
Definition start (p : Page) : App :=
  runAnalysis false
    {| page := renderCategoryTabs p; in_flight := []; issued := [] |}.

Inductive Event :=
| ClickRefresh                                (* the refresh button *)
| ClickTab (n : nat)                          (* the n-th category tab *)
| EditLimit (value : string)                  (* the user edits the limit control *)
| Settle (n : nat) (outcome : FetchOutcome).  (* the n-th request in flight settles *)

Definition handle (e : Event) (a : App) : App :=
  match e with
  | ClickRefresh =>
      (* a disabled button dispatches no click *)
      if refreshBtn_disabled (page a) then a else runAnalysis true a
  | ClickTab n =>
      match nth_error (categoryTabsEl (page a)) n with
      | Some tab =>
          runAnalysis true
            (on_page (fun p => renderCategoryTabs (with_selected (tab_category tab) p)) a)
      | None => a
      end
  | EditLimit value => on_page (with_limit value) a
  | Settle n outcome =>
      match nth_error (in_flight a) n with
      | Some _ =>
          {| page := runAnalysis_settle outcome (page a);
             in_flight := remove_nth n (in_flight a);
             issued := issued a |}
      | None => a
      end
  end.

Definition run (events : list Event) (a : App) : App :=
  fold_left (fun a e => handle e a) events a.

(** ** Vocabulary of the statements *)

(** The number of underscores in a name. *)
Fixpoint underscores (s : string) : nat :=
  match s with
  | EmptyString => 0
  | String a s' => (if Ascii.eqb a "_" then 1 else 0) + underscores s'
  end.

(** [x.toFixed(1)] prints [n / 10] for the integer [n] closest to [10 |x|],
    the larger one on a tie, with the sign of [x] in front.  [tenths x] is
    that signed [n] for a finite [x] below [10^21] in magnitude; the page
    keeps the number itself. *)
Definition tenths (x : float) : option Z :=
  match Prim2SF x with
  | S754_zero _ => Some 0%Z
  | S754_finite s m e =>
      let n :=
        match e with
        | Zneg k => Z.div (2 * (10 * Zpos m) + Z.pow 2 (Zpos k)) (2 * Z.pow 2 (Zpos k))
        | _ => 10 * Zpos m * Z.pow 2 e
        end%Z in
      (* from [10^21] on, [toFixed] prints the number as [String] does *)
      if Z.ltb n (Z.pow 10 22) then Some (if s then (- n)%Z else n) else None
  | _ => None
  end.

(** The card of an [AnalysisResult]. *)
Definition card (r : AnalysisResult) : Card := card_of (trend r) r.

(** The section [renderCards] appends for a category, if any. *)
Definition section_of (results : list AnalysisResult) (c : Category) : list Node :=
  let items := filter (fun r => category_key (trend r) =? id c) results in
  if Nat.eqb (List.length items) 0 then []
  else [SectionNode (label c ++ " News") (map card items)].

Definition sections (results : list AnalysisResult) : list Node :=
  flat_map (section_of results) section_categories.

Definition node_cards (n : Node) : list Card :=
  match n with
  | SectionNode _ cards => cards
  | CardNode c => [c]
  end.

Definition headings (nodes : list Node) : list string :=
  flat_map (fun n => match n with SectionNode h _ => [h] | CardNode _ => [] end) nodes.

(** A section with at least one card. *)
Definition filled_section (n : Node) : bool :=
  match n with
  | SectionNode _ (_ :: _) => true
  | _ => false
  end.

(** The category has an item in the batch. *)
Definition has_items (results : list AnalysisResult) (c : Category) : bool :=
  existsb (fun r => category_key (trend r) =? id c) results.

(** The item's category, or its default, is the id of a section. *)
Definition recognized (r : AnalysisResult) : bool :=
  existsb (fun c => category_key (trend r) =? id c) section_categories.

(** [frames proj m]: running [m] does not change [proj] of the page,
    whether [m] returns or throws. *)
Definition frames {X A : Type} (proj : Page -> X) (m : Script A) : Prop :=
  forall p, proj (snd (m p)) = proj p.

(** The controls of the page: the tabs, the limit field and the selected
    category. *)
Definition controls (p : Page) : list TabButton * string * string :=
  (categoryTabsEl p, limitEl_value p, selectedCategory p).

(** The failures that happen before anything is rendered, with the message
    thrown: [fetch] rejects, the status is not a success, or the body is not
    JSON or is [null]. *)
Definition failure_before_rendering (outcome : FetchOutcome) : option string :=
  match outcome with
  | Rejected message => Some message
  | Response status body =>
      if response_ok status then
        match body with
        | NotJson message => Some message
        | JsonNull => Some (TypeError_reading "null" "results")
        | JsonObject _ => None
        end
      else Some ("HTTP " ++ decimal status)%string
  end.

(** The request of the page load. *)
Definition first_request (p : Page) : Request :=
  snd (runAnalysis_begin false (renderCategoryTabs p)).

(** What holds of the application from the first request on: the tabs are
    those of [CATEGORIES], and every request issued after the first carries
    the refresh flag. *)
Definition started (first : Request) (a : App) : Prop :=
  map tab_category (categoryTabsEl (page a)) = map id CATEGORIES
  /\ exists rest,
      issued a = first :: rest
      /\ Forall (fun r => refreshParam r = "&refresh=true") rest.

(** An event other than a click on a category tab. *)
Definition no_tab_click (e : Event) : bool :=
  match e with ClickTab _ => false | _ => true end.

(** The refresh cycles are serialised: the button is disabled exactly
    while a request is in flight, and there is never more than one. *)
Definition serialised (a : App) : Prop :=
  (refreshBtn_disabled (page a) = true /\ List.length (in_flight a) = 1)
  \/ (refreshBtn_disabled (page a) = false /\ in_flight a = []).


(** ** Sample data for the closed examples *)

Definition no_evidence : EvidenceSummary :=
  {| credible_hits := 0; source_diversity := 0; confidence := 0; articles := [] |}.

Definition sample (c : option string) (headline v : string) (fake : float) : AnalysisResult :=
  {| trend := {| platform := "news"; title := headline; url := "https://example.org/";
                 category := c |};
     verdict := v;
     fake_probability := fake;
     spread_index := 50;
     credibility_score := 50;
     reasons := [];
     evidence := no_evidence |}.

(** A page as the static markup leaves it, before the script has run. *)
Definition blank_page : Page :=
  {| status_text := "";
     status_color := "";
     refreshBtn_disabled := false;
     limitEl_value := "20";
     categoryTabsEl := [];
     sourceHealthEl := [];
     summaryEls := {| total := 0; misleading_count := 0; real_count := 0;
                      avg_fake_probability := 0 |};
     resultsEl := [];
     selectedCategory := "all" |}.

(** The doubles nearest to 17.4, 0.2, 4.8 and 8.6. *)
#[warnings="-inexact-float"]
Definition fakes_a : list float := [17.4; 0.2; 4.8; 8.6]%float.
#[warnings="-inexact-float"]
Definition fakes_b : list float := [17.4; 0.2; 8.6; 4.8]%float.

Definition batch_a : list AnalysisResult := map (sample None "t" "Unverified") fakes_a.
Definition batch_b : list AnalysisResult := map (sample None "t" "Unverified") fakes_b.

Definition politics_item : AnalysisResult :=
  sample (Some "politics") "Budget vote" "Likely Real" 10.

Definition sports_item : AnalysisResult :=
  sample (Some "sports") "Cup final" "Likely Real" 20.

Definition local_item : AnalysisResult :=
  sample (Some "local") "Road works" "Likely Misleading" 80.

Definition uncategorised_item : AnalysisResult :=
  sample None "Viral clip" "Unverified" 50.

(** A payload of two results and one source, as a working backend sends
    it. *)
Definition good_payload : Payload :=
  {| results := Some (map received [sports_item; local_item]);
     source_health := Some [("newsapi", "ok")];
     generated_at := "1/2/2026, 10:00:00 AM" |}.

(** A payload that is JSON but not of the expected shape: its only result
    has no [trend]. *)
Definition trendless_item : JsonResult :=
  {| trend := None;
     verdict := "Likely Real";
     fake_probability := 10;
     spread_index := 50;
     credibility_score := 50;
     reasons := [];
     evidence := no_evidence |}.

Definition malformed_payload : Payload :=
  {| results := Some [trendless_item];
     source_health := None;
     generated_at := "1/2/2026, 10:05:00 AM" |}.

(** The page after the first, successful, load. *)
Definition loaded_page : Page :=
  page (handle (Settle 0 (Response 200 (JsonObject good_payload))) (start blank_page)).

(** ** Tactics *)

(** Unfolds the writes to the page and reduces the projections. *)
Ltac unfold_page :=
  unfold renderSummary, renderCategoryTabs, appendPill, clearResults, setStatus,
    with_status, with_disabled, with_limit, with_tabs, with_pills, with_summary,
    with_results, with_selected in *;
  cbn [status_text status_color refreshBtn_disabled limitEl_value categoryTabsEl
       sourceHealthEl summaryEls resultsEl selectedCategory] in *.

(** ** Vocabulary of the further properties *)

(** A verdict other than the two the summary counts. *)
Definition other_verdict (v : string) : bool :=
  negb (v =? "Likely Misleading") && negb (v =? "Likely Real").

(** The cards on the page, section by section. *)
Definition shown_cards (p : Page) : list Card := flat_map node_cards (resultsEl p).

(** The number of cards shown with a given verdict class. *)
Definition count_class (class : string) (p : Page) : nat :=
  List.length (filter (fun c => card_verdict_class c =? class) (shown_cards p)).

(** What a refresh renders: the summary, the pills and the cards. *)
Definition content (p : Page) : DashboardSummary * list Pill * list Node :=
  (summaryEls p, sourceHealthEl p, resultsEl p).

(** The tabs shown as active. *)
Definition active_tabs (p : Page) : list TabButton :=
  filter (fun t => tab_className t =? "tab-btn active") (categoryTabsEl p).

(** A character [encodeURIComponent] lets through, or the [%] of an
    escape. *)
Definition url_char (c : ascii) : bool := unreserved c || Ascii.eqb c "%".

(** Decimal digits. *)
Definition decimal_digit (c : ascii) : bool :=
  existsb (Ascii.eqb c) ["0"; "1"; "2"; "3"; "4"; "5"; "6"; "7"; "8"; "9"]%char.

(** An entry of the map [groups] with at least one item. *)
Definition filled_group {A : Type} (entry : string * list A) : bool :=
  negb (Nat.eqb (List.length (snd entry)) 0).

(** The tab row is the one [renderCategoryTabs] draws for the selected
    category, and that category is one of [CATEGORIES]. *)
Definition tabs_in_sync (p : Page) : Prop :=
  categoryTabsEl p = categoryTabsEl (renderCategoryTabs p)
  /\ In (selectedCategory p) (map id CATEGORIES).

(** A request for a known category, with or without the refresh flag. *)
Definition known_request (r : Request) : Prop :=
  In (query_category r) (map id CATEGORIES)
  /\ (refreshParam r = "" \/ refreshParam r = "&refresh=true").

(** What holds of the application whose script started with "all"
    selected. *)
Definition in_sync (a : App) : Prop :=
  tabs_in_sync (page a)
  /\ Forall known_request (issued a)
  /\ incl (in_flight a) (issued a).

(** Two pages that agree on the selected category and on what a refresh
    renders. *)
Definition same_view (p q : Page) : Prop :=
  selectedCategory p = selectedCategory q /\ content p = content q.

(** [agrees m]: on two such pages [m] completes the same way and leaves
    two such pages. *)
Definition agrees {A : Type} (m : Script A) : Prop :=
  forall p q, same_view p q ->
              fst (m p) = fst (m q) /\ same_view (snd (m p)) (snd (m q)).

(** The status line: its text and its colour. *)
Definition status_line (p : Page) : string * string := (status_text p, status_color p).

(** The same binary64 datum. *)
Definition same_spec_float (x y : spec_float) : bool :=
  match x, y with
  | S754_zero s, S754_zero s' => Bool.eqb s s'
  | S754_infinity s, S754_infinity s' => Bool.eqb s s'
  | S754_nan, S754_nan => true
  | S754_finite s m e, S754_finite s' m' e' => Bool.eqb s s' && Pos.eqb m m' && Z.eqb e e'
  | _, _ => false
  end.

(** [Number] reads the digits of [n] as the number [n] itself. *)
Definition reads_exactly (n : nat) : bool :=
  same_spec_float
    (Prim2SF (JsNumber.round (JsNumber.MV_decimal false (Z.of_nat n) 0)))
    (Prim2SF (Js.of_length n)).

(** * Properties *)

(** ** The string primitives *)

Lemma startsWith_empty (s : string) : Js.startsWith s "" = true.
Proof. destruct s; reflexivity. Qed.

(** [startsWith] and [includes] are the prefix and the substring tests. *)
Lemma startsWith_spec (s p : string) :
  Js.startsWith s p = true <-> exists t, s = (p ++ t)%string.
Proof.
  revert s. induction p as [| b p IH]; intros s.
  - rewrite startsWith_empty. split; [ intros _; exists s; reflexivity | reflexivity ].
  - destruct s as [| a s]; cbn [Js.startsWith String.append].
    + split; [ discriminate | intros [t H]; discriminate H ].
    + rewrite andb_true_iff, IH, Ascii.eqb_eq. split.
      * intros [-> [t ->]]. exists t. reflexivity.
      * intros [t H]. injection H as -> ->. split; [ reflexivity | exists t; reflexivity ].
Qed.

Lemma includes_spec (s p : string) :
  Js.includes s p = true <-> exists a b, s = (a ++ p ++ b)%string.
Proof.
  induction s as [| c s IH]; cbn [Js.includes].
  - rewrite orb_false_r, startsWith_spec. split.
    + intros [t H]. exists EmptyString, t. exact H.
    + intros [a [b H]]. destruct a; [ exists b; exact H | discriminate H ].
  - rewrite orb_true_iff, startsWith_spec, IH. split.
    + intros [[t H] | [a [b H]]].
      * exists EmptyString, t. exact H.
      * exists (String c a), b. cbn [String.append]. rewrite H. reflexivity.
    + intros [a [b H]]. destruct a as [| c' a]; cbn [String.append] in H.
      * left. exists b. exact H.
      * right. injection H as _ H. exists a, b. exact H.
Qed.

(** ** [Number(text)] *)

Example StringToNumber_numbers :
  map JsNumber.StringToNumber
      ["20"; ""; "  "; " 12 "; "1e3"; "0x1F"; "0b101"; "-5"; "+.5"; "5."; "1.5e1"]
  = [20; 0; 0; 12; 1000; 31; 5; -5; 0.5; 5; 15]%float.
Proof. vm_compute. reflexivity. Qed.

Example StringToNumber_not_numbers :
  map (fun text => PrimFloat.is_nan (JsNumber.StringToNumber text))
      ["abc"; "12px"; "."; "1e"; "0x"; "1 2"; "- 5"; "--5"; "1,5"; "infinity"]
  = [true; true; true; true; true; true; true; true; true; true].
Proof. vm_compute. reflexivity. Qed.

(** The value of a literal is rounded to the nearest binary64 number.  *)
#[warnings="-inexact-float"]
Example StringToNumber_rounds :
  map JsNumber.StringToNumber
      ["0.1"; "17.4"; "9007199254740993"; "1e23"; "5e-324"; "2.5e-324"; "1e400"; "-Infinity"]
  = [0.1; 17.4; 9007199254740992; 1e23; 5e-324; 5e-324; infinity; neg_infinity]%float.
Proof. vm_compute. reflexivity. Qed.

(** ** ResultAggregator *)

Section AggregatorFacts.

Context {T : Type}.
Implicit Types results : list (Result T).

Lemma count_verdict_Permutation v results results' :
  Permutation results results' ->
  count_verdict v results' = count_verdict v results.
Proof.
  intros H. unfold count_verdict.
  induction H as [| x l l' _ IH | x y l | l l' l'' _ IH1 _ IH2]; simpl.
  - reflexivity.
  - destruct (verdict x =? v); simpl; congruence.
  - destruct (verdict x =? v), (verdict y =? v); reflexivity.
  - congruence.
Qed.

End AggregatorFacts.

(** The scenario of three results with fake probabilities 10, 50 and 90. *)
Example summarize_scenario :
  summarize [sample None "a" "Likely Misleading" 10; sample None "b" "Likely Real" 50;
             sample None "c" "Unverified" 90]
  = {| total := 3; misleading_count := 1; real_count := 1; avg_fake_probability := 50 |}.
Proof. vm_compute. reflexivity. Qed.

(** C3: [summarize] of the empty sequence is all zeros; the mean is the
    constant 0, no division takes place. *)
Theorem summarize_empty (T : Type) :
  summarize (@nil (Result T))
  = {| total := 0; misleading_count := 0; real_count := 0; avg_fake_probability := 0 |}.
Proof. reflexivity. Qed.

(** C4, as stated, fails: [batch_b] is [batch_a] with its last two results
    exchanged, and the two means differ in the last bit, 7.75 against
    7.7499999999999991; [toFixed(1)] shows them as 7.8 and 7.7. *)
Lemma summarize_order_counterexample :
  Permutation batch_a batch_b
  /\ PrimFloat.ltb (avg_fake_probability (summarize batch_b))
                   (avg_fake_probability (summarize batch_a)) = true
  /\ tenths (avg_fake_probability (summarize batch_a)) = Some 78%Z
  /\ tenths (avg_fake_probability (summarize batch_b)) = Some 77%Z.
Proof.
  split; [ | vm_compute; auto ].
  unfold batch_a, batch_b, fakes_a, fakes_b; simpl.
  do 2 apply perm_skip. apply perm_swap.
Qed.

(** C4, amended: a permutation of the batch leaves [total],
    [misleading_count] and [real_count] unchanged, and leaves the whole
    summary unchanged whenever the two left-to-right floating-point sums of
    [fake_probability] agree. *)
Theorem summarize_permutation (T : Type) (results results' : list (Result T)) :
  Permutation results results' ->
  total (summarize results') = total (summarize results)
  /\ misleading_count (summarize results') = misleading_count (summarize results)
  /\ real_count (summarize results') = real_count (summarize results)
  /\ (sum_fake results' = sum_fake results -> summarize results' = summarize results).
Proof.
  intros H.
  assert (Hlen : List.length results' = List.length results)
    by (symmetry; apply Permutation_length, H).
  unfold summarize; cbn [total misleading_count real_count].
  rewrite !(count_verdict_Permutation _ _ _ H), Hlen.
  repeat split; try reflexivity.
  intros ->. reflexivity.
Qed.

Lemma summarize_permutation_witness :
  Permutation batch_a batch_b
  /\ total (summarize batch_b) = total (summarize batch_a)
  /\ misleading_count (summarize batch_b) = misleading_count (summarize batch_a)
  /\ real_count (summarize batch_b) = real_count (summarize batch_a)
  /\ (sum_fake batch_b = sum_fake batch_a -> summarize batch_b = summarize batch_a).
Proof.
  assert (H : Permutation batch_a batch_b).
  { unfold batch_a, batch_b, fakes_a, fakes_b; simpl.
    do 2 apply perm_skip. apply perm_swap. }
  split; [ exact H | exact (summarize_permutation _ batch_a batch_b H) ].
Defined.

(** ** The page: what a write leaves alone *)

Lemma with_results_twice (l l' : list Node) (p : Page) :
  with_results l (with_results l' p) = with_results l p.
Proof. reflexivity. Qed.

Lemma resultsEl_with_results (l : list Node) (p : Page) :
  resultsEl (with_results l p) = l.
Proof. reflexivity. Qed.

(** ** SourceHealthSummarizer *)

Lemma renderSourceHealth_from (entries : list (string * string)) (p : Page) :
  fold_left (fun p entry => appendPill (health_pill entry) p) entries p
  = with_pills (sourceHealthEl p ++ map pill_of (summarizeHealth entries)) p.
Proof.
  revert p. induction entries as [| e entries IH]; intros p; simpl.
  - rewrite app_nil_r. destruct p; reflexivity.
  - rewrite IH. unfold_page. rewrite <- app_assoc. reflexivity.
Qed.

(** The pills on the page are those of [summarizeHealth], in its order. *)
Lemma renderSourceHealth_pills (entries : list (string * string)) (p : Page) :
  renderSourceHealth entries p = with_pills (map pill_of (summarizeHealth entries)) p.
Proof. unfold renderSourceHealth. rewrite renderSourceHealth_from. reflexivity. Qed.

(** The flag of a pill: the status starts with "ok" or contains
    "fallback". *)
Lemma health_pill_ok (source status : string) :
  pill_ok (health_pill (source, status)) = true
  <-> Js.startsWith status "ok" = true \/ Js.includes status "fallback" = true.
Proof. simpl. apply orb_true_iff. Qed.

Lemma health_pill_label (source status : string) :
  pill_label (health_pill (source, status))
  = (Js.replace source "_" " " ++ ": " ++ status)%string.
Proof. reflexivity. Qed.

Lemma replace_underscore_step (a : ascii) (s : string) :
  Js.replace (String a s) "_" " "
  = if Ascii.eqb a "_" then String " " s else String a (Js.replace s "_" " ").
Proof.
  cbn [Js.replace Js.startsWith]. rewrite startsWith_empty, andb_true_r.
  destruct (Ascii.eqb a "_"); reflexivity.
Qed.

Lemma replaceAll_no_underscore (s : string) :
  underscores s = 0 -> Js.replaceAll_char s "_" " " = s.
Proof.
  induction s as [| a s IH]; simpl; intros H; [ reflexivity | ].
  destruct (Ascii.eqb a "_"); [ discriminate | ].
  simpl. rewrite IH by exact H. reflexivity.
Qed.

(** With at most one underscore in the name, the label has every
    underscore replaced. *)
Lemma replace_at_most_one_underscore (s : string) :
  underscores s <= 1 -> Js.replace s "_" " " = Js.replaceAll_char s "_" " ".
Proof.
  induction s as [| a s IH]; intros H; [ reflexivity | ].
  rewrite replace_underscore_step. simpl in *.
  destruct (Ascii.eqb a "_"); simpl in *.
  - rewrite replaceAll_no_underscore by lia. reflexivity.
  - rewrite IH by lia. reflexivity.
Qed.

(** Only the first underscore goes: from the second on, the name is kept
    as it is. *)
Lemma replace_first_underscore_only (s t : string) :
  underscores s = 0 ->
  Js.replace (s ++ String "_" t)%string "_" " " = (s ++ String " " t)%string.
Proof.
  induction s as [| a s IH]; intros H.
  - cbn [String.append]. rewrite replace_underscore_step. reflexivity.
  - simpl in H. cbn [String.append]. rewrite replace_underscore_step.
    destruct (Ascii.eqb a "_"); [ discriminate | ].
    rewrite IH by exact H. reflexivity.
Qed.

Example summarizeHealth_twitter_api :
  summarizeHealth [("twitter_api", "ok - cached")]
  = [ {| pill_label := "twitter api: ok - cached"; pill_ok := true |} ].
Proof. reflexivity. Qed.

Example summarizeHealth_newsapi :
  summarizeHealth [("newsapi", "timeout")]
  = [ {| pill_label := "newsapi: timeout"; pill_ok := false |} ].
Proof. reflexivity. Qed.

Example summarizeHealth_rss :
  map pill_ok (summarizeHealth [("rss", "fallback-used")]) = [true].
Proof. reflexivity. Qed.

(** C2: at a source name with two underscores the label keeps the second
    one, where the claim has every underscore replaced by a space; the [ok]
    flag is as the claim says. *)
Theorem summarizeHealth_second_underscore :
  summarizeHealth [("google_news_rss", "ok")]
  = [ {| pill_label := "google news_rss: ok"; pill_ok := true |} ]
  /\ (Js.replaceAll_char "google_news_rss" "_" " " ++ ": " ++ "ok")%string
     = "google news rss: ok".
Proof. split; reflexivity. Qed.

(** ** CategoryPartitioner *)

Section GroupMapFacts.

Context {A : Type}.
Implicit Types (groups : GroupMap A) (key : string) (items : list A).

Lemma Map_get_set groups key value key' :
  Map_get (Map_set groups key value) key'
  = if key =? key' then Some value else Map_get groups key'.
Proof.
  induction groups as [| [k v] rest IH]; simpl.
  - reflexivity.
  - destruct (String.eqb_spec k key) as [-> | Hk]; simpl.
    + destruct (key =? key'); reflexivity.
    + rewrite IH.
      destruct (String.eqb_spec k key') as [-> | Hk'].
      * apply String.eqb_neq in Hk. rewrite String.eqb_sym in Hk.
        rewrite Hk. reflexivity.
      * reflexivity.
Qed.

(** One [push]: the item joins the array of its category and no other. *)
Lemma group_push_get groups category item key :
  Map_get_or_empty (group_push groups category item) key
  = Map_get_or_empty groups key ++ (if category =? key then [item] else []).
Proof.
  unfold group_push, Map_get_or_empty, Map_has.
  destruct (Map_get groups category) as [items |] eqn:Hget.
  - rewrite Hget, Map_get_set.
    destruct (String.eqb_spec category key) as [<- | _].
    + rewrite Hget. reflexivity.
    + rewrite app_nil_r. reflexivity.
  - rewrite Map_get_set, String.eqb_refl, !Map_get_set.
    destruct (String.eqb_spec category key) as [<- | _].
    + rewrite Hget. reflexivity.
    + rewrite app_nil_r. reflexivity.
Qed.

End GroupMapFacts.

Lemma buildCard_received (r : AnalysisResult) (p : Page) :
  buildCard (received r) p = (Normal (card r), p).
Proof. reflexivity. Qed.

Lemma mapM_buildCard_received (rs : list AnalysisResult) (p : Page) :
  mapM buildCard (map received rs) p = (Normal (map card rs), p).
Proof.
  induction rs as [| r rs IH]; simpl; [ reflexivity | ].
  unfold bind. rewrite buildCard_received, IH. reflexivity.
Qed.

Lemma grouping_received (rs : list AnalysisResult) (groups : GroupMap JsonResult) (p : Page) :
  foldM group_item (map received rs) groups p
  = (Normal (fold_left (fun groups r => group_push groups (category_key (trend r)) (received r))
                       rs groups), p).
Proof.
  revert groups. induction rs as [| r rs IH]; intros groups; simpl; [ reflexivity | ].
  unfold bind at 1. unfold group_item at 1. simpl. apply IH.
Qed.

Lemma groups_received (rs : list AnalysisResult) (groups : GroupMap JsonResult) (key : string) :
  Map_get_or_empty
    (fold_left (fun groups r => group_push groups (category_key (trend r)) (received r))
               rs groups)
    key
  = Map_get_or_empty groups key
      ++ map received (filter (fun r => category_key (trend r) =? key) rs).
Proof.
  revert groups. induction rs as [| r rs IH]; intros groups; simpl.
  - rewrite app_nil_r. reflexivity.
  - rewrite IH, group_push_get, <- app_assoc.
    destruct (category_key (trend r) =? key); reflexivity.
Qed.

Lemma forEach_flat (rs : list AnalysisResult) (p : Page) :
  forEach (map received rs) append_card p
  = (Normal tt, with_results (resultsEl p ++ map (fun r => CardNode (card r)) rs) p).
Proof.
  revert p. induction rs as [| r rs IH]; intros p; simpl.
  - unfold ret. rewrite app_nil_r. destruct p; reflexivity.
  - unfold bind at 1. unfold append_card at 1. unfold bind at 1.
    rewrite buildCard_received.
    unfold appendResult, write. rewrite IH.
    rewrite resultsEl_with_results, with_results_twice, <- app_assoc. reflexivity.
Qed.

Lemma forEach_sections (rs : list AnalysisResult) (groups : GroupMap JsonResult)
      (cats : list Category) (p : Page) :
  (forall key, Map_get_or_empty groups key
               = map received (filter (fun r => category_key (trend r) =? key) rs)) ->
  forEach cats (append_section groups) p
  = (Normal tt, with_results (resultsEl p ++ flat_map (section_of rs) cats) p).
Proof.
  intros Hgroups. revert p. induction cats as [| c cats IH]; intros p.
  - cbn [forEach flat_map]. unfold ret. rewrite app_nil_r. destruct p; reflexivity.
  - cbn [forEach flat_map]. unfold bind at 1.
    unfold append_section at 1, section_of at 1. cbv zeta.
    rewrite Hgroups, length_map.
    match goal with |- context [Nat.eqb ?n 0] => destruct (Nat.eqb n 0) end.
    + unfold ret at 1. rewrite IH. reflexivity.
    + unfold bind at 1. rewrite mapM_buildCard_received.
      unfold appendResult, write. rewrite IH.
      rewrite resultsEl_with_results, with_results_twice, <- app_assoc. reflexivity.
Qed.

(** The "all" view: one section per category that has items, in the order
    of [CATEGORIES]. *)
Lemma renderCards_all (rs : list AnalysisResult) (p : Page) :
  selectedCategory p = "all" ->
  renderCards (map received rs) p = (Normal tt, with_results (sections rs) p).
Proof.
  intros Hall. unfold renderCards.
  unfold bind at 1. unfold write at 1.
  unfold bind at 1. unfold read at 1.
  change (selectedCategory (clearResults p)) with (selectedCategory p).
  rewrite Hall. change ("all" =? "all") with true. cbv iota.
  unfold bind at 1. rewrite grouping_received.
  rewrite (forEach_sections rs).
  - reflexivity.
  - intros key. rewrite groups_received. reflexivity.
Qed.

(** Any other view: one bare card per result, in input order. *)
Lemma renderCards_single (rs : list AnalysisResult) (p : Page) :
  selectedCategory p <> "all" ->
  renderCards (map received rs) p
  = (Normal tt, with_results (map (fun r => CardNode (card r)) rs) p).
Proof.
  intros Hsel. unfold renderCards.
  unfold bind at 1. unfold write at 1.
  unfold bind at 1. unfold read at 1.
  change (selectedCategory (clearResults p)) with (selectedCategory p).
  apply String.eqb_neq in Hsel. rewrite Hsel.
  rewrite forEach_flat. reflexivity.
Qed.

(** *** What the "all" view shows *)

Lemma section_categories_ids :
  map id section_categories
  = ["local"; "india"; "world"; "entertainment"; "health"; "trending"; "sports";
     "esports"; "food"; "events"].
Proof. reflexivity. Qed.

Lemma filter_nil_existsb {A : Type} (f : A -> bool) (l : list A) :
  Nat.eqb (List.length (filter f l)) 0 = negb (existsb f l).
Proof.
  induction l as [| x l IH]; simpl; [ reflexivity | ].
  destruct (f x); simpl; [ reflexivity | exact IH ].
Qed.

Lemma headings_sections (results : list AnalysisResult) (cats : list Category) :
  headings (flat_map (section_of results) cats)
  = map (fun c => label c ++ " News")%string (filter (has_items results) cats).
Proof.
  induction cats as [| c cats IH]; simpl; [ reflexivity | ].
  unfold headings in *. rewrite flat_map_app, IH.
  unfold section_of at 1, has_items at 2. rewrite filter_nil_existsb.
  destruct (existsb _ results); reflexivity.
Qed.

Lemma filled_sections (results : list AnalysisResult) (cats : list Category) :
  forallb filled_section (flat_map (section_of results) cats) = true.
Proof.
  induction cats as [| c cats IH]; simpl; [ reflexivity | ].
  rewrite forallb_app, IH, andb_true_r.
  unfold section_of.
  destruct (filter _ results) as [| r rs]; reflexivity.
Qed.

Lemma existsb_Permutation {A : Type} (f : A -> bool) (l l' : list A) :
  Permutation l l' -> existsb f l' = existsb f l.
Proof.
  induction 1 as [| x l l' _ IH | x y l | l l' l'' _ IH1 _ IH2]; simpl.
  - reflexivity.
  - rewrite IH. reflexivity.
  - destruct (f x), (f y); reflexivity.
  - congruence.
Qed.

Lemma has_items_Permutation (results results' : list AnalysisResult) (cats : list Category) :
  Permutation results results' ->
  filter (has_items results') cats = filter (has_items results) cats.
Proof.
  intros H. apply filter_ext. intros c. apply existsb_Permutation, H.
Qed.

(** Two disjoint tests split a list the way their disjunction filters
    it. *)
Lemma filter_disjoint_Permutation {A : Type} (f g : A -> bool) (l : list A) :
  (forall x, f x = true -> g x = false) ->
  Permutation (filter f l ++ filter g l) (filter (fun x => f x || g x) l).
Proof.
  intros Hfg. induction l as [| x l IH]; simpl; [ constructor | ].
  destruct (f x) eqn:Hf; simpl.
  - rewrite (Hfg x Hf). apply perm_skip, IH.
  - destruct (g x); simpl; [ | exact IH ].
    apply Permutation_sym, Permutation_cons_app, Permutation_sym, IH.
Qed.

Lemma buckets_Permutation {A : Type} (key_of : A -> string) (keys : list string) (l : list A) :
  NoDup keys ->
  Permutation (flat_map (fun k => filter (fun x => key_of x =? k) l) keys)
              (filter (fun x => existsb (fun k => key_of x =? k) keys) l).
Proof.
  induction 1 as [| k keys Hk _ IH]; simpl.
  - induction l as [| x l IHl]; simpl; [ constructor | exact IHl ].
  - eapply Permutation_trans; [ apply Permutation_app_head, IH | ].
    apply filter_disjoint_Permutation.
    intros x Hx. apply String.eqb_eq in Hx. subst k.
    destruct (existsb _ keys) eqn:He; [ | reflexivity ].
    apply existsb_exists in He. destruct He as [k' [Hin Heq]].
    apply String.eqb_eq in Heq. subst k'. contradiction.
Qed.

Lemma node_cards_sections (results : list AnalysisResult) (cats : list Category) :
  flat_map node_cards (flat_map (section_of results) cats)
  = map card
      (flat_map (fun k => filter (fun r => category_key (trend r) =? k) results)
                (map id cats)).
Proof.
  induction cats as [| c cats IH]; simpl; [ reflexivity | ].
  rewrite flat_map_app, IH, map_app. f_equal.
  unfold section_of.
  destruct (filter _ results) as [| r rs]; simpl; [ reflexivity | ].
  rewrite app_nil_r. reflexivity.
Qed.

(** The cards of the "all" view are those of the recognised items, each
    once, category by category; the other items have no card. *)
Lemma sections_cards (results : list AnalysisResult) :
  Permutation (flat_map node_cards (sections results))
              (map card (filter recognized results)).
Proof.
  unfold sections. rewrite node_cards_sections.
  apply Permutation_map.
  eapply Permutation_trans.
  - apply buckets_Permutation. rewrite section_categories_ids.
    repeat (constructor; [ simpl; intuition discriminate | ]). constructor.
  - unfold recognized.
    replace (filter (fun x => existsb (fun k => category_key (trend x) =? k)
                                      (map id section_categories)) results)
      with (filter (fun r => existsb (fun c => category_key (trend r) =? id c)
                                     section_categories) results).
    + apply Permutation_refl.
    + apply filter_ext. intros r.
      induction section_categories as [| c cs IHc]; simpl; [ reflexivity | ].
      rewrite IHc. reflexivity.
Qed.

(** An item without a category goes to the section "Trending News". *)
Lemma absent_category_is_trending (t : TrendRef) :
  category t = None \/ category t = Some "" -> category_key t = "trending".
Proof. intros [H | H]; unfold category_key; rewrite H; reflexivity. Qed.

(** An item with any other category keeps it as its key. *)
Lemma present_category_is_kept (t : TrendRef) (c : string) :
  category t = Some c -> c <> "" -> category_key t = c.
Proof.
  intros H Hc. unfold category_key. rewrite H. simpl.
  apply String.eqb_neq in Hc. rewrite Hc. reflexivity.
Qed.

(** C1: in the "all" view an item whose category is not one of the known
    ones gets no card at all: it is kept under its own key, which no section
    reads, where the claim sends it to "trending".  An item without a
    category does go to "Trending News". *)
Theorem unrecognized_category_has_no_section :
  renderCards [received politics_item] blank_page
  = (Normal tt, with_results [] blank_page)
  /\ renderCards [received politics_item; received uncategorised_item] blank_page
     = (Normal tt,
        with_results [SectionNode "Trending News" [card uncategorised_item]] blank_page).
Proof. split; reflexivity. Qed.

(** C5: with any category other than "all" selected, [renderCards] never
    throws on a sequence of AnalysisResults and leaves in [resultsEl] one
    bare card per result, in input order, nothing dropped and no section
    made. *)
Theorem single_category_view_is_flat (results : list AnalysisResult) (p : Page) :
  selectedCategory p <> "all" ->
  exists p',
    renderCards (map received results) p = (Normal tt, p')
    /\ resultsEl p' = map (fun r => CardNode (card r)) results
    /\ flat_map node_cards (resultsEl p') = map card results
    /\ headings (resultsEl p') = [].
Proof.
  intros Hsel. eexists. split; [ apply renderCards_single, Hsel | ].
  rewrite resultsEl_with_results. split; [ reflexivity | ].
  split; induction results as [| r rs IH]; simpl; congruence.
Qed.

Lemma single_category_view_is_flat_witness :
  selectedCategory (with_selected "sports" blank_page) <> "all"
  /\ exists p',
      renderCards (map received [sports_item; politics_item; uncategorised_item])
                  (with_selected "sports" blank_page) = (Normal tt, p')
      /\ resultsEl p'
         = map (fun r => CardNode (card r)) [sports_item; politics_item; uncategorised_item]
      /\ flat_map node_cards (resultsEl p')
         = map card [sports_item; politics_item; uncategorised_item]
      /\ headings (resultsEl p') = [].
Proof.
  assert (H : selectedCategory (with_selected "sports" blank_page) <> "all")
    by (simpl; discriminate).
  split; [ exact H | ].
  exact (single_category_view_is_flat
           [sports_item; politics_item; uncategorised_item]
           (with_selected "sports" blank_page) H).
Defined.

(** C6: in the "all" view the sections come in the order of [CATEGORIES]
    with "all" left out, one for each category that has an item (holding
    the cards of its items in input order) and none for a category
    without; every section holds at least one card; and a rearranged input
    gives the same sequence of section headings. *)
Theorem all_view_sections_in_fixed_order (results results' : list AnalysisResult) (p : Page) :
  selectedCategory p = "all" ->
  Permutation results results' ->
  exists p' p'',
    renderCards (map received results) p = (Normal tt, p')
    /\ renderCards (map received results') p = (Normal tt, p'')
    /\ resultsEl p'
       = flat_map (section_of results) (filter (fun c => negb (id c =? "all")) CATEGORIES)
    /\ headings (resultsEl p')
       = map (fun c => label c ++ " News")%string
             (filter (has_items results)
                     (filter (fun c => negb (id c =? "all")) CATEGORIES))
    /\ forallb filled_section (resultsEl p') = true
    /\ headings (resultsEl p'') = headings (resultsEl p').
Proof.
  intros Hall Hperm. do 2 eexists.
  split; [ apply renderCards_all, Hall | ].
  split; [ apply renderCards_all, Hall | ].
  rewrite !resultsEl_with_results. unfold sections.
  rewrite !headings_sections, (has_items_Permutation _ _ _ Hperm).
  repeat split. apply filled_sections.
Qed.

Lemma all_view_sections_in_fixed_order_witness :
  selectedCategory blank_page = "all"
  /\ Permutation [sports_item; local_item; uncategorised_item]
                 [uncategorised_item; sports_item; local_item]
  /\ exists p' p'',
      renderCards (map received [sports_item; local_item; uncategorised_item]) blank_page
      = (Normal tt, p')
      /\ renderCards (map received [uncategorised_item; sports_item; local_item]) blank_page
         = (Normal tt, p'')
      /\ resultsEl p'
         = flat_map (section_of [sports_item; local_item; uncategorised_item])
                    (filter (fun c => negb (id c =? "all")) CATEGORIES)
      /\ headings (resultsEl p')
         = map (fun c => label c ++ " News")%string
               (filter (has_items [sports_item; local_item; uncategorised_item])
                       (filter (fun c => negb (id c =? "all")) CATEGORIES))
      /\ forallb filled_section (resultsEl p') = true
      /\ headings (resultsEl p'') = headings (resultsEl p').
Proof.
  assert (Hperm : Permutation [sports_item; local_item; uncategorised_item]
                              [uncategorised_item; sports_item; local_item]).
  { apply Permutation_sym.
    apply (Permutation_cons_app [sports_item; local_item] [] uncategorised_item).
    apply Permutation_refl. }
  split; [ reflexivity | ]. split; [ exact Hperm | ].
  exact (all_view_sections_in_fixed_order _ _ blank_page eq_refl Hperm).
Defined.

Example all_view_headings :
  headings (resultsEl (snd (renderCards
    (map received [sports_item; local_item; uncategorised_item; politics_item]) blank_page)))
  = ["Local News"; "Trending News"; "Sports News"].
Proof. reflexivity. Qed.

(** ** What a script leaves unchanged *)

Section Frames.

Context {X : Type} (proj : Page -> X).

Lemma frames_ret {A : Type} (a : A) : frames proj (ret a).
Proof. intros p. reflexivity. Qed.

Lemma frames_throw {A : Type} (message : string) : frames proj (@throw A message).
Proof. intros p. reflexivity. Qed.

Lemma frames_read {A : Type} (f : Page -> A) : frames proj (read f).
Proof. intros p. reflexivity. Qed.

Lemma frames_write (f : Page -> Page) :
  (forall p, proj (f p) = proj p) -> frames proj (write f).
Proof. intros H p. apply H. Qed.

Lemma frames_bind {A B : Type} (m : Script A) (k : A -> Script B) :
  frames proj m -> (forall a, frames proj (k a)) -> frames proj (bind m k).
Proof.
  intros Hm Hk p. unfold bind. specialize (Hm p).
  destruct (m p) as [[a | message] p']; simpl in *.
  - rewrite Hk. exact Hm.
  - exact Hm.
Qed.

Lemma frames_forEach {A : Type} (xs : list A) (body : A -> Script unit) :
  (forall x, frames proj (body x)) -> frames proj (forEach xs body).
Proof.
  intros H. induction xs as [| x xs IH]; simpl.
  - apply frames_ret.
  - apply frames_bind; [ apply H | intros _; exact IH ].
Qed.

Lemma frames_foldM {A S : Type} (body : S -> A -> Script S) (xs : list A) (s : S) :
  (forall s x, frames proj (body s x)) -> frames proj (foldM body xs s).
Proof.
  intros H. revert s. induction xs as [| x xs IH]; intros s; simpl.
  - apply frames_ret.
  - apply frames_bind; [ apply H | intros s'; apply IH ].
Qed.

Lemma frames_mapM {A B : Type} (build : A -> Script B) (xs : list A) :
  (forall x, frames proj (build x)) -> frames proj (mapM build xs).
Proof.
  intros H. induction xs as [| x xs IH]; simpl.
  - apply frames_ret.
  - apply frames_bind; [ apply H | intros y ].
    apply frames_bind; [ exact IH | intros ys; apply frames_ret ].
Qed.

Lemma frames_trend_of (item : JsonResult) (property : string) :
  frames proj (trend_of item property).
Proof. unfold trend_of. destruct (trend item); [ apply frames_ret | apply frames_throw ]. Qed.

Lemma frames_buildCard (item : JsonResult) : frames proj (buildCard item).
Proof.
  unfold buildCard. apply frames_bind; [ apply frames_trend_of | intros t; apply frames_ret ].
Qed.

Hypothesis proj_results : forall nodes p, proj (with_results nodes p) = proj p.

(** [renderCards] writes to [resultsEl] only. *)
Lemma frames_renderCards (results : list JsonResult) : frames proj (renderCards results).
Proof.
  unfold renderCards.
  apply frames_bind; [ apply frames_write; intros p; apply proj_results | intros _ ].
  apply frames_bind; [ apply frames_read | intros selected ].
  destruct (selected =? "all").
  - apply frames_bind.
    + apply frames_foldM. intros groups item. unfold group_item.
      apply frames_bind; [ apply frames_trend_of | intros t; apply frames_ret ].
    + intros groups. apply frames_forEach. intros c. unfold append_section.
      destruct (Nat.eqb _ 0); [ apply frames_ret | ].
      apply frames_bind; [ apply frames_mapM, frames_buildCard | intros cards ].
      apply frames_write. intros p. apply proj_results.
  - apply frames_forEach. intros item. unfold append_card.
    apply frames_bind; [ apply frames_buildCard | intros c ].
    apply frames_write. intros p. apply proj_results.
Qed.

Hypothesis proj_status : forall text color p, proj (with_status text color p) = proj p.
Hypothesis proj_summary : forall s p, proj (with_summary s p) = proj p.
Hypothesis proj_pills : forall pills p, proj (with_pills pills p) = proj p.

(** The [try] block writes to the status line, the summary, the pills and
    the results only. *)
Lemma frames_try_block (outcome : FetchOutcome) : frames proj (try_block outcome).
Proof.
  destruct outcome as [message | status body]; simpl; [ apply frames_throw | ].
  destruct (negb (response_ok status)); [ apply frames_throw | ].
  destruct body as [message | | data]; try apply frames_throw.
  apply frames_bind; [ apply frames_write; intros p; apply proj_summary | intros _ ].
  apply frames_bind.
  { apply frames_write. intros p. rewrite renderSourceHealth_pills. apply proj_pills. }
  intros _. apply frames_bind; [ apply frames_renderCards | intros _ ].
  apply frames_write. intros p. apply proj_status.
Qed.

End Frames.

Lemma runAnalysis_settle_controls (outcome : FetchOutcome) (p : Page) :
  controls (runAnalysis_settle outcome p) = controls p.
Proof.
  unfold runAnalysis_settle.
  assert (H : controls (snd (try_block outcome p)) = controls p)
    by (apply frames_try_block; reflexivity).
  destruct (try_block outcome p) as [[[] | message] p']; simpl in H; exact H.
Qed.

(** Whatever the outcome, [finally] enables the refresh button again. *)
Lemma runAnalysis_settle_enables (outcome : FetchOutcome) (p : Page) :
  refreshBtn_disabled (runAnalysis_settle outcome p) = false.
Proof. reflexivity. Qed.

(** Whatever is thrown in the [try] block ends in the status line. *)
Lemma runAnalysis_settle_failure (outcome : FetchOutcome) (p p' : Page) (message : string) :
  try_block outcome p = (Throw message, p') ->
  status_text (runAnalysis_settle outcome p) = ("Failed to load analysis: " ++ message)%string
  /\ status_color (runAnalysis_settle outcome p) = "#8d2519".
Proof. intros H. unfold runAnalysis_settle. rewrite H. split; reflexivity. Qed.

(** ** DashboardController *)

(** *** The limit of a request *)

Example limit_of_default : limit_of "" = 20%float.
Proof. reflexivity. Qed.

Example limit_of_number :
  map limit_of ["20"; "5"; "100"; " 12 "; "1e2"; "0x10"]
  = [20; 5; 100; 12; 100; 16]%float.
Proof. vm_compute. reflexivity. Qed.

(** What a number control makes of the text it is given. *)
Example value_sanitization_examples :
  map NumberControl.value_sanitization
      ["20"; "-5"; "1.5"; ".5"; "1e3"; ""; "abc"; "12px"; "5."; "+5"; " 5"; "0x10";
       "Infinity"; "1e"]
  = ["20"; "-5"; "1.5"; ".5"; "1e3"; ""; ""; ""; ""; ""; ""; ""; ""; ""].
Proof. reflexivity. Qed.

(** Texts a number control never reports: [Number] makes NaN of them. *)
Example limit_of_not_a_number :
  map (fun v => PrimFloat.is_nan (limit_of v)) ["abc"; "12px"; "twenty"; "1,5"]
  = [true; true; true; true].
Proof. vm_compute. reflexivity. Qed.

























(** *** A failed refresh *)

(** C7, as stated, fails: a payload that parses but lacks a [trend] makes
    [renderCards] throw after the summary and the pills were replaced and
    the cards cleared. *)
Lemma malformed_payload_counterexample :
  let before := loaded_page in
  let after :=
    runAnalysis_settle (Response 200 (JsonObject malformed_payload))
                       (fst (runAnalysis_begin true before)) in
  status_text after
  = "Failed to load analysis: Cannot read properties of undefined (reading 'category')"
  /\ total (summaryEls before) = 2 /\ total (summaryEls after) = 1
  /\ headings (resultsEl before) = ["Local News"; "Sports News"]
  /\ resultsEl after = []
  /\ map pill_text (sourceHealthEl before) = ["newsapi: ok"]
  /\ sourceHealthEl after = [].
Proof. vm_compute. repeat split. Qed.

(** C7, amended: when a refresh fails before rendering starts (the request
    is rejected, the status code is not a success, or the body is not JSON
    or is null), the summary, the cards and the health pills are those
    shown before the refresh; the status line reads "Failed to load
    analysis: <message>", in the error colour, and the button is enabled
    again. *)
Theorem failed_refresh_keeps_content
        (forceRefresh : bool) (outcome : FetchOutcome) (message : string) (p : Page) :
  failure_before_rendering outcome = Some message ->
  let p' := runAnalysis_settle outcome (fst (runAnalysis_begin forceRefresh p)) in
  p' = with_disabled false (setStatus ("Failed to load analysis: " ++ message) true p)
  /\ summaryEls p' = summaryEls p
  /\ resultsEl p' = resultsEl p
  /\ sourceHealthEl p' = sourceHealthEl p
  /\ status_text p' = ("Failed to load analysis: " ++ message)%string.
Proof.
  intros Hfail.
  assert (Hthrow : forall q, try_block outcome q = (Throw message, q)).
  { intros q. destruct outcome as [m | status body]; simpl in *.
    - injection Hfail as <-. reflexivity.
    - destruct (response_ok status); simpl in *.
      + destruct body; try discriminate; injection Hfail as <-; reflexivity.
      + injection Hfail as <-. reflexivity. }
  cbv zeta. unfold runAnalysis_settle. rewrite Hthrow.
  repeat split.
Qed.

Lemma failed_refresh_keeps_content_witness :
  failure_before_rendering (Response 503 JsonNull) = Some "HTTP 503"
  /\ let p' := runAnalysis_settle (Response 503 JsonNull)
                                  (fst (runAnalysis_begin true loaded_page)) in
     p' = with_disabled false (setStatus "Failed to load analysis: HTTP 503" true loaded_page)
     /\ summaryEls p' = summaryEls loaded_page
     /\ resultsEl p' = resultsEl loaded_page
     /\ sourceHealthEl p' = sourceHealthEl loaded_page
     /\ status_text p' = "Failed to load analysis: HTTP 503".
Proof.
  split; [ reflexivity | ].
  exact (failed_refresh_keeps_content true (Response 503 JsonNull) "HTTP 503" loaded_page
                                      eq_refl).
Defined.

(** A payload of AnalysisResults never fails. *)
Lemma well_shaped_payload_succeeds
      (rs : list AnalysisResult) (health : option (list (string * string)))
      (generated : string) (p : Page) :
  exists p',
    try_block
      (Response 200 (JsonObject {| results := Some (map received rs);
                                   source_health := health;
                                   generated_at := generated |})) p
    = (Normal tt, p').
Proof.
  simpl. unfold bind at 1. unfold write at 1. unfold bind at 1. unfold write at 1.
  unfold bind at 1.
  destruct (String.eqb_spec
              (selectedCategory (renderSourceHealth (or_empty health)
                                   (renderSummary (map received rs) p))) "all") as [H | H].
  - rewrite (renderCards_all rs _ H). eexists. reflexivity.
  - rewrite (renderCards_single rs _ H). eexists. reflexivity.
Qed.

(** *** Requests and their triggers *)

Lemma encodeURIComponent_ids :
  map (fun c => encodeURIComponent (id c)) CATEGORIES = map id CATEGORIES.
Proof. reflexivity. Qed.

Lemma renderCategoryTabs_categories (p : Page) :
  map tab_category (categoryTabsEl (renderCategoryTabs p)) = map id CATEGORIES.
Proof. reflexivity. Qed.

(** While the button is disabled a click on it does nothing. *)
Lemma refresh_click_inert_when_disabled (a : App) :
  refreshBtn_disabled (page a) = true -> handle ClickRefresh a = a.
Proof. intros H. simpl. rewrite H. reflexivity. Qed.

(** The request [runAnalysis] issues. *)
Lemma runAnalysis_issues (forceRefresh : bool) (a : App) :
  let r := snd (runAnalysis_begin forceRefresh (page a)) in
  issued (runAnalysis forceRefresh a) = issued a ++ [r]
  /\ in_flight (runAnalysis forceRefresh a) = in_flight a ++ [r]
  /\ refreshParam r = (if forceRefresh then "&refresh=true" else "")
  /\ query_category r = encodeURIComponent (selectedCategory (page a))
  /\ controls (page (runAnalysis forceRefresh a)) = controls (page a).
Proof. repeat split. Qed.

Lemma started_start (p : Page) : started (first_request p) (start p).
Proof. split; [ reflexivity | ]. exists []. split; [ reflexivity | constructor ]. Qed.

Lemma started_forced (first : Request) (a : App) :
  started first a -> started first (runAnalysis true a).
Proof.
  intros [Htabs [rest [Hissued Hrest]]].
  split; [ exact Htabs | ].
  exists (rest ++ [snd (runAnalysis_begin true (page a))]).
  destruct (runAnalysis_issues true a) as [Hi _]. rewrite Hi, Hissued.
  split; [ reflexivity | ].
  apply Forall_app. split; [ exact Hrest | ]. constructor; [ reflexivity | constructor ].
Qed.

Lemma started_handle (first : Request) (e : Event) (a : App) :
  started first a -> started first (handle e a).
Proof.
  intros Ha. destruct e as [| n | value | n outcome]; simpl.
  - destruct (refreshBtn_disabled (page a)); [ exact Ha | apply started_forced, Ha ].
  - destruct (nth_error (categoryTabsEl (page a)) n) as [tab |]; [ | exact Ha ].
    apply started_forced. destruct Ha as [_ Hissued]. split; [ reflexivity | exact Hissued ].
  - destruct Ha as [Htabs Hissued]. split; [ exact Htabs | exact Hissued ].
  - destruct (nth_error (in_flight a) n); [ | exact Ha ].
    destruct Ha as [Htabs Hissued]. split; [ | exact Hissued ].
    cbn [page].
    replace (categoryTabsEl (runAnalysis_settle outcome (page a)))
      with (categoryTabsEl (page a)); [ exact Htabs | ].
    symmetry.
    exact (f_equal (fun x => fst (fst x)) (runAnalysis_settle_controls outcome (page a))).
Qed.

Lemma started_run (first : Request) (events : list Event) (a : App) :
  started first a -> started first (run events a).
Proof.
  revert a. induction events as [| e events IH]; intros a Ha; simpl.
  - exact Ha.
  - apply IH, started_handle, Ha.
Qed.

(** Without tab clicks (as in the earlier revision of the script, which
    has no tabs) the refresh cycles are serialised: the button is the only
    trigger, and it is disabled while a request is in flight. *)
Lemma serialised_handle (e : Event) (a : App) :
  no_tab_click e = true -> serialised a -> serialised (handle e a).
Proof.
  intros He Ha. destruct e as [| n | value | n outcome]; try discriminate; cbn [handle].
  - destruct Ha as [[Hd Hn] | [Hd Hn]]; rewrite Hd.
    + left. split; assumption.
    + left. split; [ reflexivity | ]. cbn. rewrite Hn. reflexivity.
  - exact Ha.
  - destruct Ha as [[Hd Hn] | [Hd Hn]].
    + destruct (in_flight a) as [| r [| r' rs]] eqn:Hf; try discriminate.
      destruct n as [| [| n]]; cbn [nth_error].
      * right. split; reflexivity.
      * left. split; [ exact Hd | rewrite Hf; reflexivity ].
      * left. split; [ exact Hd | rewrite Hf; reflexivity ].
    + rewrite Hn. destruct n; cbn [nth_error]; right; split; assumption.
Qed.

Lemma serialised_without_tabs (events : list Event) (p : Page) :
  forallb no_tab_click events = true -> serialised (run events (start p)).
Proof.
  assert (H : forall a, serialised a -> forallb no_tab_click events = true ->
                        serialised (run events a)).
  { induction events as [| e events IH]; intros a Ha He; simpl in *; [ exact Ha | ].
    apply andb_true_iff in He. destruct He as [He Hes].
    apply IH; [ apply serialised_handle; assumption | exact Hes ]. }
  apply H. left. split; reflexivity.
Qed.

(** C8: right after the page has loaded, its first request is in flight and
    the refresh button is disabled and inert; a click on the tab "Sports"
    nevertheless issues a second request while the first has not settled,
    where the claim has every trigger inert. *)
Theorem tab_click_while_in_flight (p : Page) :
  let a := start p in
  refreshBtn_disabled (page a) = true
  /\ List.length (in_flight a) = 1
  /\ handle ClickRefresh a = a
  /\ List.length (in_flight (handle (ClickTab 7) a)) = 2
  /\ map query_category (in_flight (handle (ClickTab 7) a))
     = [encodeURIComponent (selectedCategory p); "sports"].
Proof. repeat split. Qed.

(** C10: at any point after the page has loaded, selecting the n-th
    category tab issues exactly one request, for that category and with
    [&refresh=true] appended; of all the requests issued so far, only the
    first, that of the page load, is without the flag. *)
Theorem tab_selection_forces_refresh
        (p : Page) (events : list Event) (n : nat) (c : Category) :
  nth_error CATEGORIES n = Some c ->
  let a := run events (start p) in
  exists r rest,
    issued (handle (ClickTab n) a) = issued a ++ [r]
    /\ in_flight (handle (ClickTab n) a) = in_flight a ++ [r]
    /\ refreshParam r = "&refresh=true"
    /\ query_category r = id c
    /\ issued a = first_request p :: rest
    /\ refreshParam (first_request p) = ""
    /\ Forall (fun r' => refreshParam r' = "&refresh=true") rest.
Proof.
  intros Hc a.
  assert (Ha : started (first_request p) a) by apply started_run, started_start.
  destruct Ha as [Htabs [rest [Hissued Hrest]]].
  assert (Htab : exists tab, nth_error (categoryTabsEl (page a)) n = Some tab
                             /\ tab_category tab = id c).
  { assert (H : nth_error (map tab_category (categoryTabsEl (page a))) n = Some (id c))
      by (rewrite Htabs; apply map_nth_error, Hc).
    rewrite nth_error_map in H.
    destruct (nth_error (categoryTabsEl (page a)) n) as [tab |]; [ | discriminate ].
    exists tab. split; [ reflexivity | ]. cbn [option_map] in H.
    injection H as H. exact H. }
  destruct Htab as [tab [Hnth Hcat]].
  exists (snd (runAnalysis_begin true
                 (renderCategoryTabs (with_selected (tab_category tab) (page a))))),
         rest.
  cbn [handle]. rewrite Hnth.
  repeat split; try assumption.
  cbn [runAnalysis_begin snd query_category]. unfold_page. rewrite Hcat.
  assert (Hin : In c CATEGORIES) by (eapply nth_error_In, Hc).
  simpl in Hin. intuition (subst; reflexivity).
Qed.

Lemma tab_selection_forces_refresh_witness :
  nth_error CATEGORIES 7 = Some {| id := "sports"; label := "Sports" |}
  /\ let a := run [Settle 0 (Response 200 (JsonObject good_payload)); ClickRefresh]
                  (start blank_page) in
     exists r rest,
       issued (handle (ClickTab 7) a) = issued a ++ [r]
       /\ in_flight (handle (ClickTab 7) a) = in_flight a ++ [r]
       /\ refreshParam r = "&refresh=true"
       /\ query_category r = "sports"
       /\ issued a = first_request blank_page :: rest
       /\ refreshParam (first_request blank_page) = ""
       /\ Forall (fun r' => refreshParam r' = "&refresh=true") rest.
Proof.
  split; [ reflexivity | ].
  exact (tab_selection_forces_refresh blank_page
           [Settle 0 (Response 200 (JsonObject good_payload)); ClickRefresh]
           7 {| id := "sports"; label := "Sports" |} eq_refl).
Defined.

(** * Further properties of the script *)

(** ** [renderSummary] and [verdictClass] *)

Lemma verdict_counts_sum (T : Type) (results : list (Result T)) :
  count_verdict "Likely Misleading" results + count_verdict "Likely Real" results
    + List.length (filter (fun r => other_verdict (verdict r)) results)
  = List.length results.
Proof.
  unfold count_verdict, other_verdict.
  induction results as [| r rs IH]; [ reflexivity | ].
  assert (Hboth : (verdict r =? "Likely Misleading") && (verdict r =? "Likely Real")
                  = false).
  { destruct (String.eqb_spec (verdict r) "Likely Misleading") as [E | _];
      [ rewrite E | ]; reflexivity. }
  cbn [filter].
  destruct (verdict r =? "Likely Misleading"), (verdict r =? "Likely Real");
    try discriminate Hboth; cbn [negb andb List.length]; lia.
Qed.

(** X1: every result is counted exactly once, as misleading, as real or as
    neither, so [misleading_count + real_count] never exceeds [total]. *)
Theorem verdict_counts_partition (T : Type) (results : list (Result T)) :
  misleading_count (summarize results) + real_count (summarize results)
    + List.length (filter (fun r => other_verdict (verdict r)) results)
  = total (summarize results)
  /\ misleading_count (summarize results) + real_count (summarize results)
     <= total (summarize results).
Proof.
  pose proof (verdict_counts_sum T results) as H.
  unfold summarize. cbn [misleading_count real_count total].
  split; [ exact H | lia ].
Qed.

Lemma verdictClass_fake (v : string) :
  (verdictClass v =? "fake") = (v =? "Likely Misleading").
Proof.
  unfold verdictClass.
  destruct (String.eqb_spec v "Likely Real") as [-> | _]; [ reflexivity | ].
  destruct (v =? "Likely Misleading"); reflexivity.
Qed.

Lemma verdictClass_real (v : string) :
  (verdictClass v =? "real") = (v =? "Likely Real").
Proof.
  unfold verdictClass.
  destruct (v =? "Likely Real"); [ reflexivity | ].
  destruct (v =? "Likely Misleading"); reflexivity.
Qed.

Lemma verdictClass_warn (v : string) :
  (verdictClass v =? "warn") = other_verdict v.
Proof.
  unfold verdictClass, other_verdict.
  destruct (String.eqb_spec v "Likely Real") as [-> | _]; [ reflexivity | ].
  destruct (v =? "Likely Misleading"); reflexivity.
Qed.

Lemma count_class_cards (class : string) (test : string -> bool)
      (results : list AnalysisResult) :
  (forall v, (verdictClass v =? class) = test v) ->
  List.length (filter (fun c => card_verdict_class c =? class) (map card results))
  = List.length (filter (fun r => test (verdict r)) results).
Proof.
  intros H.
  induction results as [| r rs IH]; [ reflexivity | ].
  cbn [map filter]. change (card_verdict_class (card r)) with (verdictClass (verdict r)).
  rewrite H. destruct (test (verdict r)); cbn [List.length]; rewrite IH; reflexivity.
Qed.

(** X2: in a single-category view the cards agree with the summary: there
    are [total] of them, [misleading_count] with the class "fake" and
    [real_count] with the class "real"; the others have the class "warn". *)
Theorem single_view_cards_match_summary (results : list AnalysisResult) (p : Page) :
  selectedCategory p <> "all" ->
  exists p',
    renderCards (map received results) p = (Normal tt, p')
    /\ List.length (shown_cards p') = total (summarize results)
    /\ count_class "fake" p' = misleading_count (summarize results)
    /\ count_class "real" p' = real_count (summarize results)
    /\ count_class "fake" p' + count_class "real" p' + count_class "warn" p'
       = List.length (shown_cards p').
Proof.
  intros Hsel. eexists. split; [ apply renderCards_single, Hsel | ].
  assert (Hcards : shown_cards (with_results (map (fun r => CardNode (card r)) results) p)
                   = map card results).
  { unfold shown_cards. rewrite resultsEl_with_results.
    induction results as [| r rs IH]; simpl; congruence. }
  unfold count_class. rewrite Hcards, length_map.
  rewrite (count_class_cards "fake" _ results verdictClass_fake).
  rewrite (count_class_cards "real" _ results verdictClass_real).
  rewrite (count_class_cards "warn" _ results verdictClass_warn).
  repeat split. apply verdict_counts_sum.
Qed.

Lemma single_view_cards_match_summary_witness :
  selectedCategory (with_selected "sports" blank_page) <> "all"
  /\ exists p',
      renderCards (map received [sports_item; local_item; uncategorised_item])
                  (with_selected "sports" blank_page) = (Normal tt, p')
      /\ List.length (shown_cards p')
         = total (summarize [sports_item; local_item; uncategorised_item])
      /\ count_class "fake" p'
         = misleading_count (summarize [sports_item; local_item; uncategorised_item])
      /\ count_class "real" p'
         = real_count (summarize [sports_item; local_item; uncategorised_item])
      /\ count_class "fake" p' + count_class "real" p' + count_class "warn" p'
         = List.length (shown_cards p').
Proof.
  assert (H : selectedCategory (with_selected "sports" blank_page) <> "all")
    by (simpl; discriminate).
  split; [ exact H | ].
  exact (single_view_cards_match_summary [sports_item; local_item; uncategorised_item]
           (with_selected "sports" blank_page) H).
Defined.

(** ** [renderCards]: the "all" view *)

(** X3: in the "all" view the cards shown are those of the items whose
    category (or, without one, the default "trending") is the id of a
    section, each once; there are never more cards than results, and when
    every item is such an item no card is missing. *)
Theorem all_view_cards (results : list AnalysisResult) (p : Page) :
  selectedCategory p = "all" ->
  exists p',
    renderCards (map received results) p = (Normal tt, p')
    /\ Permutation (shown_cards p') (map card (filter recognized results))
    /\ List.length (shown_cards p') <= total (summarize results)
    /\ (forallb recognized results = true ->
        Permutation (shown_cards p') (map card results)
        /\ List.length (shown_cards p') = total (summarize results)).
Proof.
  intros Hall. eexists. split; [ apply renderCards_all, Hall | ].
  unfold shown_cards. rewrite resultsEl_with_results.
  pose proof (sections_cards results) as Hperm.
  assert (Hlen : List.length (flat_map node_cards (sections results))
                 = List.length (filter recognized results))
    by (rewrite (Permutation_length Hperm); apply length_map).
  split; [ exact Hperm | ]. split.
  - rewrite Hlen. apply filter_length_le.
  - intros Hrec.
    assert (Hall_rec : filter recognized results = results).
    { clear - Hrec. induction results as [| r rs IH]; [ reflexivity | ].
      simpl in *. apply andb_true_iff in Hrec. destruct Hrec as [Hr Hrs].
      rewrite Hr, (IH Hrs). reflexivity. }
    rewrite Hall_rec in Hperm, Hlen. split; [ exact Hperm | exact Hlen ].
Qed.

Lemma all_view_cards_witness :
  selectedCategory blank_page = "all"
  /\ exists p',
      renderCards (map received [sports_item; politics_item; uncategorised_item]) blank_page
      = (Normal tt, p')
      /\ Permutation (shown_cards p')
           (map card (filter recognized [sports_item; politics_item; uncategorised_item]))
      /\ List.length (shown_cards p')
         <= total (summarize [sports_item; politics_item; uncategorised_item])
      /\ (forallb recognized [sports_item; politics_item; uncategorised_item] = true ->
          Permutation (shown_cards p')
                      (map card [sports_item; politics_item; uncategorised_item])
          /\ List.length (shown_cards p')
             = total (summarize [sports_item; politics_item; uncategorised_item])).
Proof.
  split; [ reflexivity | ].
  exact (all_view_cards [sports_item; politics_item; uncategorised_item] blank_page eq_refl).
Defined.

(** *** The grouping loop *)

Section GroupingFacts.

Context {A : Type}.
Implicit Types (groups : GroupMap A) (key : string).

(** [group_push] step by step along the entries of the map. *)
Lemma group_push_cons (k : string) (v : list A) groups key (item : A) :
  group_push ((k, v) :: groups) key item
  = if k =? key then (k, v ++ [item]) :: groups
    else (k, v) :: group_push groups key item.
Proof.
  unfold group_push, Map_has. cbn [Map_get Map_set].
  destruct (k =? key) eqn:Hk.
  - cbn [Map_get Map_set]. rewrite Hk. reflexivity.
  - destruct (Map_get groups key) as [items |] eqn:Hget.
    + cbn [Map_get]. rewrite Hk, Hget. cbn [Map_set]. rewrite Hk. reflexivity.
    + cbn [Map_get Map_set]. rewrite Hk.
      destruct (Map_get (Map_set groups key []) key); reflexivity.
Qed.

Lemma group_push_nil key (item : A) : group_push [] key item = [(key, [item])].
Proof.
  unfold group_push, Map_has. cbn [Map_get Map_set].
  rewrite String.eqb_refl. cbn [Map_set]. rewrite ?String.eqb_refl. reflexivity.
Qed.

Lemma group_push_keys groups key (item : A) :
  map fst (group_push groups key item)
  = if existsb (String.eqb key) (map fst groups) then map fst groups
    else map fst groups ++ [key].
Proof.
  induction groups as [| [k v] rest IH].
  - rewrite group_push_nil. reflexivity.
  - rewrite group_push_cons. cbn [map fst existsb].
    rewrite (String.eqb_sym key k).
    destruct (k =? key); cbn [orb map fst].
    + reflexivity.
    + rewrite IH. destruct (existsb _ (map fst rest)); reflexivity.
Qed.

Lemma group_push_values groups key (item : A) :
  Permutation (flat_map snd (group_push groups key item)) (flat_map snd groups ++ [item]).
Proof.
  induction groups as [| [k v] rest IH].
  - rewrite group_push_nil. apply Permutation_refl.
  - rewrite group_push_cons. destruct (k =? key); cbn [flat_map snd].
    + rewrite <- !app_assoc. apply Permutation_app_head, Permutation_app_comm.
    + rewrite <- app_assoc. apply Permutation_app_head, IH.
Qed.

Lemma group_push_filled groups key (item : A) :
  forallb filled_group groups = true ->
  forallb filled_group (group_push groups key item) = true.
Proof.
  induction groups as [| [k v] rest IH]; intros H.
  - rewrite group_push_nil. reflexivity.
  - rewrite group_push_cons. cbn [forallb] in *.
    apply andb_true_iff in H. destruct H as [Hv Hrest].
    destruct (k =? key); cbn [forallb].
    + rewrite Hrest, andb_true_r. unfold filled_group. cbn [snd].
      rewrite length_app. cbn [List.length]. rewrite Nat.add_comm. reflexivity.
    + rewrite Hv, (IH Hrest). reflexivity.
Qed.

(** The loop keeps the keys distinct and the arrays filled, and adds the
    items to what the map holds. *)
Lemma grouping_invariant (key_of : A -> string) (items : list A) groups :
  NoDup (map fst groups) ->
  forallb filled_group groups = true ->
  let groups' :=
    fold_left (fun groups item => group_push groups (key_of item) item) items groups in
  NoDup (map fst groups')
  /\ forallb filled_group groups' = true
  /\ Permutation (flat_map snd groups') (flat_map snd groups ++ items).
Proof.
  revert groups. induction items as [| x items IH]; intros groups Hkeys Hfilled.
  - cbn. rewrite app_nil_r. repeat split; [ assumption | assumption | apply Permutation_refl ].
  - cbn [fold_left].
    assert (Hkeys' : NoDup (map fst (group_push groups (key_of x) x))).
    { rewrite group_push_keys.
      destruct (existsb (String.eqb (key_of x)) (map fst groups)) eqn:He;
        [ exact Hkeys | ].
      apply (Permutation_NoDup (Permutation_cons_append (map fst groups) (key_of x))).
      constructor; [ | exact Hkeys ].
      intros Hin.
      assert (Hex : existsb (String.eqb (key_of x)) (map fst groups) = true)
        by (apply existsb_exists; exists (key_of x); split;
            [ exact Hin | apply String.eqb_refl ]).
      rewrite Hex in He. discriminate He. }
    destruct (IH _ Hkeys' (group_push_filled groups (key_of x) x Hfilled))
      as [H1 [H2 H3]].
    repeat split; [ exact H1 | exact H2 | ].
    eapply Permutation_trans; [ exact H3 | ].
    eapply Permutation_trans;
      [ apply Permutation_app_tail, group_push_values | ].
    rewrite <- app_assoc. apply Permutation_refl.
Qed.

End GroupingFacts.

(** X4: the grouping loop of the "all" view loses nothing: on a sequence of
    AnalysisResults it never throws and leaves the page alone; the map it
    builds has distinct keys and no empty array, holds every item exactly
    once, and under each key the items of that category in input order,
    the unrecognised categories included. *)
Theorem grouping_keeps_every_item (results : list AnalysisResult) (p : Page) :
  exists groups,
    foldM group_item (map received results) [] p = (Normal groups, p)
    /\ NoDup (map fst groups)
    /\ forallb filled_group groups = true
    /\ Permutation (flat_map snd groups) (map received results)
    /\ forall key,
         Map_get_or_empty groups key
         = map received (filter (fun r => category_key (trend r) =? key) results).
Proof.
  eexists. split; [ apply grouping_received | ].
  assert (Hfold :
            fold_left (fun groups r => group_push groups (category_key (trend r)) (received r))
                      results []
            = fold_left (fun groups item =>
                           group_push groups
                             (match trend item with
                              | Some t => category_key t
                              | None => "trending"
                              end) item)
                        (map received results) []).
  { generalize (@nil (string * list JsonResult)) as groups.
    induction results as [| r rs IH]; intros groups; [ reflexivity | apply IH ]. }
  split; [ | split; [ | split ] ].
  - rewrite Hfold. apply grouping_invariant; [ constructor | reflexivity ].
  - rewrite Hfold. apply grouping_invariant; [ constructor | reflexivity ].
  - rewrite Hfold.
    apply (grouping_invariant _ (map received results) []); [ constructor | reflexivity ].
  - intros key. rewrite groups_received. reflexivity.
Qed.

(** ** [buildCard] *)

Lemma CATEGORY_LABELS_known (c : Category) :
  In c CATEGORIES -> CATEGORY_LABELS (id c) = Some (label c) /\ label c <> "".
Proof.
  intros Hin. simpl in Hin.
  repeat (destruct Hin as [<- | Hin]; [ split; [ reflexivity | discriminate ] | ]).
  contradiction.
Qed.

(** X5: a card filed under a section shows the label of that section as its
    category; only a card sent to "Trending News" by the default, its item
    having no category or an empty one, shows no category text. *)
Theorem card_category_matches_section (r : AnalysisResult) (c : Category) :
  In c section_categories ->
  category_key (trend r) = id c ->
  card_category (card r) = Some (label c)
  \/ (id c = "trending"
      /\ (category (trend r) = None /\ card_category (card r) = None
          \/ category (trend r) = Some "" /\ card_category (card r) = Some "")).
Proof.
  intros Hin Hkey.
  assert (Hc : In c CATEGORIES) by (apply filter_In in Hin; apply Hin).
  destruct (CATEGORY_LABELS_known c Hc) as [Hlabel Hne].
  change (card_category (card r)) with (category_text (category (trend r))).
  unfold category_key in Hkey.
  destruct (category (trend r)) as [k |]; cbn [Js.or_else category_text] in *.
  - destruct (String.eqb_spec k "") as [Hk | Hk].
    + right. split; [ symmetry; exact Hkey | ]. right. rewrite Hk. split; reflexivity.
    + left. rewrite Hkey, Hlabel. cbn [Js.or_else].
      apply String.eqb_neq in Hne. rewrite Hne. reflexivity.
  - right. split; [ symmetry; exact Hkey | ]. left. split; reflexivity.
Qed.

Lemma card_category_matches_section_witness :
  In {| id := "sports"; label := "Sports" |} section_categories
  /\ category_key (trend sports_item) = "sports"
  /\ (card_category (card sports_item) = Some "Sports"
      \/ ("sports" = "trending"
          /\ (category (trend sports_item) = None
              /\ card_category (card sports_item) = None
              \/ category (trend sports_item) = Some ""
                 /\ card_category (card sports_item) = Some ""))).
Proof.
  assert (Hin : In {| id := "sports"; label := "Sports" |} section_categories)
    by (simpl; tauto).
  split; [ exact Hin | ]. split; [ reflexivity | ].
  exact (card_category_matches_section sports_item
           {| id := "sports"; label := "Sports" |} Hin eq_refl).
Defined.

Lemma or_else_default_not_empty (a : option string) (b : string) :
  b <> "" -> Js.or_else a b <> "".
Proof.
  intros Hb. unfold Js.or_else. destruct a as [s |]; [ | exact Hb ].
  destruct (String.eqb_spec s ""); assumption.
Qed.

(** The text of an evidence link: the source of the article, and "Source"
    when the source is absent or the empty text. *)
Lemma makeEvidenceLink_text (article : EvidenceArticle) :
  match source article with
  | Some s =>
      (s <> "" -> anchor_text (makeEvidenceLink article) = s)
      /\ (s = "" -> anchor_text (makeEvidenceLink article) = "Source")
  | None => anchor_text (makeEvidenceLink article) = "Source"
  end.
Proof.
  unfold makeEvidenceLink, Js.or_else. cbn [anchor_text].
  destruct (source article) as [s |]; [ | reflexivity ].
  destruct (String.eqb_spec s ""); split; intros H; congruence.
Qed.

(** X6: a card shows at most four evidence links, those of the first four
    articles in their order: the link at each of these places points to the
    article at that place and carries its source as text, or "Source" when
    the article has no source or an empty one; every link opens in a new
    tab without referrer and has a text. *)
Theorem card_evidence_links_bounded (r : AnalysisResult) :
  List.length (card_evidence_links (card r))
  = Nat.min 4 (List.length (articles (evidence r)))
  /\ map href (card_evidence_links (card r))
     = firstn 4 (map article_url (articles (evidence r)))
  /\ Forall (fun a => anchor_text a <> "" /\ target a = "_blank" /\ rel a = "noreferrer")
            (card_evidence_links (card r))
  /\ (forall i article,
         i < 4 ->
         nth_error (articles (evidence r)) i = Some article ->
         exists a,
           nth_error (card_evidence_links (card r)) i = Some a
           /\ href a = article_url article
           /\ match source article with
              | Some s => (s <> "" -> anchor_text a = s)
                          /\ (s = "" -> anchor_text a = "Source")
              | None => anchor_text a = "Source"
              end).
Proof.
  change (card_evidence_links (card r))
    with (map makeEvidenceLink (firstn 4 (articles (evidence r)))).
  split; [ rewrite length_map; apply length_firstn | ].
  split; [ rewrite map_map, <- firstn_map; reflexivity | ].
  split.
  - apply Forall_forall. intros a Ha. apply in_map_iff in Ha.
    destruct Ha as [article [<- _]]. split; [ | split; reflexivity ].
    apply or_else_default_not_empty. discriminate.
  - intros i article Hi Hnth. exists (makeEvidenceLink article).
    split; [ | split; [ reflexivity | apply makeEvidenceLink_text ] ].
    apply map_nth_error. rewrite nth_error_firstn.
    destruct (Nat.ltb_spec i 4); [ exact Hnth | lia ].
Qed.

(** A card with six articles: four links, the third with the default
    text. *)
Example card_evidence_links_six :
  let article (s : option string) (u : string) := {| source := s; article_url := u |} in
  let r :=
    {| trend := trend sports_item; verdict := "Likely Real"; fake_probability := 0;
       spread_index := 0; credibility_score := 0; reasons := [];
       evidence :=
         {| credible_hits := 0; source_diversity := 0; confidence := 0;
            articles := [ article (Some "Reuters") "u1"; article (Some "AP") "u2";
                          article None "u3"; article (Some "") "u4";
                          article (Some "BBC") "u5"; article (Some "AFP") "u6" ] |} |} in
  map (fun a => (anchor_text a, href a)) (card_evidence_links (card r))
  = [("Reuters", "u1"); ("AP", "u2"); ("Source", "u3"); ("Source", "u4")].
Proof. reflexivity. Qed.

(** ** [renderSourceHealth] *)

(** X7: a pill has the class "source-pill ok" exactly when its status text
    begins with "ok" or has "fallback" somewhere in it, and the class
    "source-pill warn" otherwise; the source name plays no part. *)
Theorem health_pill_class (source status : string) :
  (pill_className (pill_of (health_pill (source, status))) = "source-pill ok"
   <-> (exists t, status = ("ok" ++ t)%string)
       \/ (exists a b, status = (a ++ "fallback" ++ b)%string))
  /\ (pill_className (pill_of (health_pill (source, status))) = "source-pill ok"
      \/ pill_className (pill_of (health_pill (source, status))) = "source-pill warn").
Proof.
  rewrite <- startsWith_spec, <- includes_spec, <- orb_true_iff.
  change (Js.startsWith status "ok" || Js.includes status "fallback")
    with (pill_ok (health_pill (source, status))).
  unfold pill_of. cbn [pill_className].
  destruct (pill_ok (health_pill (source, status))); split.
  - split; reflexivity.
  - left. reflexivity.
  - split; discriminate.
  - right. reflexivity.
Qed.

(** X8: [renderSourceHealth] shows one pill per entry, in the order of the
    entries, whatever pills were there before, and changes nothing else on
    the page. *)
Theorem renderSourceHealth_replaces (entries : list (string * string))
        (old : list Pill) (p : Page) :
  renderSourceHealth entries (with_pills old p) = renderSourceHealth entries p
  /\ renderSourceHealth entries p
     = with_pills (sourceHealthEl (renderSourceHealth entries p)) p
  /\ List.length (sourceHealthEl (renderSourceHealth entries p)) = List.length entries
  /\ map pill_text (sourceHealthEl (renderSourceHealth entries p))
     = map (fun e => Js.replace (fst e) "_" " " ++ ": " ++ snd e)%string entries.
Proof.
  rewrite !renderSourceHealth_pills. unfold summarizeHealth.
  split; [ reflexivity | ]. split; [ reflexivity | ].
  cbn [sourceHealthEl with_pills]. rewrite !map_map, !length_map.
  split; [ reflexivity | ].
  apply map_ext. intros [source status]. reflexivity.
Qed.

Lemma replace_underscore_length (s : string) :
  String.length (Js.replace s "_" " ") = String.length s.
Proof.
  induction s as [| a s IH]; [ reflexivity | ].
  rewrite replace_underscore_step.
  destruct (Ascii.eqb a "_"); cbn [String.length]; congruence.
Qed.

Lemma string_append_assoc (a b c : string) :
  ((a ++ b) ++ c = a ++ (b ++ c))%string.
Proof.
  induction a as [| x a IH]; cbn [String.append]; [ reflexivity | ].
  rewrite IH. reflexivity.
Qed.

(** X9: the label of a pill is the source name with its first underscore
    turned into a space, then ": " and the status: whatever stands before
    the first underscore and whatever stands after it, further underscores
    included, is kept; so the name keeps its length and loses exactly one
    underscore, and a name without underscore is kept as it is. *)
Theorem replace_removes_one_underscore (source status : string) :
  pill_label (health_pill (source, status))
  = (Js.replace source "_" " " ++ ": " ++ status)%string
  /\ (forall a b, source = (a ++ "_" ++ b)%string -> underscores a = 0 ->
                  Js.replace source "_" " " = (a ++ " " ++ b)%string
                  /\ pill_label (health_pill (source, status))
                     = (a ++ " " ++ b ++ ": " ++ status)%string)
  /\ underscores (Js.replace source "_" " ") = Nat.pred (underscores source)
  /\ String.length (Js.replace source "_" " ") = String.length source
  /\ (underscores source = 0 -> Js.replace source "_" " " = source).
Proof.
  split; [ reflexivity | ].
  split.
  { intros a b -> Ha.
    assert (H : Js.replace (a ++ "_" ++ b) "_" " " = (a ++ " " ++ b)%string)
      by (apply replace_first_underscore_only, Ha).
    split; [ exact H | ].
    rewrite health_pill_label, H, !string_append_assoc. reflexivity. }
  split; [ | split; [ apply replace_underscore_length | ] ].
  - induction source as [| a s IH]; [ reflexivity | ].
    rewrite replace_underscore_step. cbn [underscores].
    destruct (Ascii.eqb a "_") eqn:Ha; cbn [underscores].
    + reflexivity.
    + rewrite Ha. exact IH.
  - intros H. rewrite replace_at_most_one_underscore by lia.
    apply replaceAll_no_underscore, H.
Qed.

Lemma replace_removes_one_underscore_witness :
  underscores "newsapi" = 0
  /\ Js.replace "newsapi" "_" " " = "newsapi"
  /\ underscores "google" = 0
  /\ pill_label (health_pill ("google_news_rss", "ok")) = "google news_rss: ok"
  /\ underscores (Js.replace "google_news_rss" "_" " ")
     = Nat.pred (underscores "google_news_rss").
Proof.
  split; [ reflexivity | ].
  split.
  { exact (proj2 (proj2 (proj2 (proj2 (replace_removes_one_underscore "newsapi" "ok"))))
             eq_refl). }
  split; [ reflexivity | ].
  split.
  - exact (proj2 (proj1 (proj2 (replace_removes_one_underscore "google_news_rss" "ok"))
                    "google" "news_rss" eq_refl eq_refl)).
  - exact (proj1 (proj2 (proj2 (replace_removes_one_underscore "google_news_rss" "ok")))).
Defined.

(** ** The category tabs and the requests *)

Lemma controls_parts (p q : Page) :
  controls p = controls q ->
  categoryTabsEl p = categoryTabsEl q
  /\ limitEl_value p = limitEl_value q
  /\ selectedCategory p = selectedCategory q.
Proof.
  intros H. repeat split.
  - exact (f_equal (fun x => fst (fst x)) H).
  - exact (f_equal (fun x => snd (fst x)) H).
  - exact (f_equal snd H).
Qed.

Lemma tabs_in_sync_controls (p q : Page) :
  controls q = controls p -> tabs_in_sync p -> tabs_in_sync q.
Proof.
  intros H [Htabs Hsel]. destruct (controls_parts q p H) as [Ht [_ Hs]].
  split.
  - rewrite Ht, Htabs. unfold renderCategoryTabs.
    cbn [categoryTabsEl with_tabs]. rewrite Hs. reflexivity.
  - rewrite Hs. exact Hsel.
Qed.

Lemma encodeURIComponent_known (s : string) :
  In s (map id CATEGORIES) -> encodeURIComponent s = s.
Proof.
  intros Hin. simpl in Hin.
  repeat (destruct Hin as [<- | Hin]; [ reflexivity | ]). contradiction.
Qed.

Lemma in_sync_runAnalysis (forceRefresh : bool) (a : App) :
  in_sync a -> in_sync (runAnalysis forceRefresh a).
Proof.
  intros [Hsync [Hknown Hincl]].
  destruct (runAnalysis_issues forceRefresh a) as [Hi [Hf [Hr [Hc Hctl]]]].
  split; [ | split ].
  - apply (tabs_in_sync_controls (page a)); [ exact Hctl | exact Hsync ].
  - rewrite Hi. apply Forall_app. split; [ exact Hknown | ].
    constructor; [ | constructor ]. split.
    + rewrite Hc, encodeURIComponent_known; apply Hsync.
    + rewrite Hr. destruct forceRefresh; [ right | left ]; reflexivity.
  - rewrite Hi, Hf. apply incl_app.
    + apply incl_appl, Hincl.
    + apply incl_appr, incl_refl.
Qed.

Lemma incl_remove_nth {A : Type} (n : nat) (l : list A) : incl (remove_nth n l) l.
Proof.
  revert n. induction l as [| x l IH]; intros n.
  - destruct n; apply incl_refl.
  - destruct n as [| n]; cbn [remove_nth].
    + apply incl_tl, incl_refl.
    + apply incl_cons; [ left; reflexivity | apply incl_tl, IH ].
Qed.

Lemma in_sync_handle (e : Event) (a : App) : in_sync a -> in_sync (handle e a).
Proof.
  intros Ha. destruct e as [| n | value | n outcome]; cbn [handle].
  - destruct (refreshBtn_disabled (page a)); [ exact Ha | apply in_sync_runAnalysis, Ha ].
  - destruct (nth_error (categoryTabsEl (page a)) n) as [tab |] eqn:Hnth; [ | exact Ha ].
    apply in_sync_runAnalysis. destruct Ha as [[Htabs Hsel] [Hknown Hincl]].
    split; [ | split; assumption ].
    split; [ reflexivity | ].
    cbn [on_page page]. unfold renderCategoryTabs.
    cbn [selectedCategory with_tabs with_selected].
    apply nth_error_In in Hnth. rewrite Htabs in Hnth.
    unfold renderCategoryTabs in Hnth. cbn [categoryTabsEl with_tabs] in Hnth.
    apply in_map_iff in Hnth. destruct Hnth as [c [<- Hc]].
    cbn [tab_category]. apply in_map, Hc.
  - (* the limit is no part of what the tabs show *)
    destruct Ha as [[Htabs Hsel] Hrest]. split; [ | exact Hrest ].
    split; [ exact Htabs | exact Hsel ].
  - destruct (nth_error (in_flight a) n) as [settled |]; [ | exact Ha ].
    destruct Ha as [Hsync [Hknown Hincl]]. split; [ | split ].
    + apply (tabs_in_sync_controls (page a));
        [ apply runAnalysis_settle_controls | exact Hsync ].
    + exact Hknown.
    + cbn [in_flight issued].
      intros r' Hr. apply Hincl. exact (incl_remove_nth n _ r' Hr).
Qed.

Lemma in_sync_run (events : list Event) (a : App) : in_sync a -> in_sync (run events a).
Proof.
  revert a. induction events as [| e events IH]; intros a Ha; cbn.
  - exact Ha.
  - apply IH, in_sync_handle, Ha.
Qed.

Lemma in_sync_start (p : Page) : selectedCategory p = "all" -> in_sync (start p).
Proof.
  intros Hall. apply in_sync_runAnalysis. split; [ | split ].
  - split; [ reflexivity | ]. cbn. rewrite Hall. left. reflexivity.
  - constructor.
  - apply incl_refl.
Qed.

Lemma active_tab_of_known (p : Page) :
  tabs_in_sync p -> map tab_category (active_tabs p) = [selectedCategory p].
Proof.
  intros [Htabs Hsel]. unfold active_tabs. rewrite Htabs.
  unfold renderCategoryTabs. cbn [categoryTabsEl with_tabs].
  simpl in Hsel.
  repeat (destruct Hsel as [<- | Hsel]; [ reflexivity | ]). contradiction.
Qed.

(** X10: from the start of the script, with "all" selected, and after any
    sequence of clicks, edits and answers, the selected category is one of
    [CATEGORIES], the tab row shows the eleven labels in their order, and
    exactly one tab is marked active: that of the selected category. *)
Theorem tabs_follow_selection (p : Page) (events : list Event) :
  selectedCategory p = "all" ->
  let a := run events (start p) in
  In (selectedCategory (page a)) (map id CATEGORIES)
  /\ map tab_text (categoryTabsEl (page a)) = map label CATEGORIES
  /\ map tab_category (categoryTabsEl (page a)) = map id CATEGORIES
  /\ map tab_category (active_tabs (page a)) = [selectedCategory (page a)].
Proof.
  intros Hall a.
  assert (Ha : in_sync a) by apply in_sync_run, in_sync_start, Hall.
  destruct Ha as [Hsync _]. pose proof Hsync as [Htabs Hsel].
  split; [ exact Hsel | ].
  split; [ rewrite Htabs; reflexivity | ].
  split; [ rewrite Htabs; reflexivity | ].
  apply active_tab_of_known, Hsync.
Qed.

Lemma tabs_follow_selection_witness :
  selectedCategory blank_page = "all"
  /\ let a := run [ClickTab 7; Settle 0 (Response 200 (JsonObject good_payload)); ClickTab 2]
                  (start blank_page) in
     In (selectedCategory (page a)) (map id CATEGORIES)
     /\ map tab_text (categoryTabsEl (page a)) = map label CATEGORIES
     /\ map tab_category (categoryTabsEl (page a)) = map id CATEGORIES
     /\ map tab_category (active_tabs (page a)) = [selectedCategory (page a)].
Proof.
  split; [ reflexivity | ].
  exact (tabs_follow_selection blank_page
           [ClickTab 7; Settle 0 (Response 200 (JsonObject good_payload)); ClickTab 2]
           eq_refl).
Defined.

(** X11: from the start of the script, with "all" selected, every request
    ever issued names one of the known categories, verbatim, and carries
    either no refresh parameter or [&refresh=true]; and every request in
    flight is one of those issued. *)
Theorem requests_name_known_categories (p : Page) (events : list Event) :
  selectedCategory p = "all" ->
  let a := run events (start p) in
  Forall known_request (issued a)
  /\ incl (in_flight a) (issued a)
  /\ List.length (in_flight a) <= List.length (issued a).
Proof.
  intros Hall a.
  assert (Ha : in_sync a) by apply in_sync_run, in_sync_start, Hall.
  destruct Ha as [_ [Hknown Hincl]].
  split; [ exact Hknown | ]. split; [ exact Hincl | ].
  assert (H : forall evs b, List.length (in_flight b) <= List.length (issued b) ->
                            List.length (in_flight (run evs b))
                            <= List.length (issued (run evs b))).
  { induction evs as [| e evs IH]; intros b Hb; cbn; [ exact Hb | ].
    apply IH. destruct e as [| n | value | n outcome]; cbn [handle].
    - destruct (refreshBtn_disabled (page b)); [ exact Hb | ].
      cbn. rewrite !length_app. cbn. lia.
    - destruct (nth_error (categoryTabsEl (page b)) n); [ | exact Hb ].
      cbn. rewrite !length_app. cbn. lia.
    - exact Hb.
    - destruct (nth_error (in_flight b) n); [ | exact Hb ].
      cbn [in_flight issued].
      assert (Hrm : forall (l : list Request) k, List.length (remove_nth k l) <= List.length l).
      { induction l as [| x l IHl]; intros k; destruct k; cbn; try lia.
        specialize (IHl k). lia. }
      specialize (Hrm (in_flight b) n). lia. }
  apply H. cbn. lia.
Qed.

Lemma requests_name_known_categories_witness :
  selectedCategory blank_page = "all"
  /\ let a := run [ClickTab 7; ClickRefresh; ClickTab 2] (start blank_page) in
     Forall known_request (issued a)
     /\ incl (in_flight a) (issued a)
     /\ List.length (in_flight a) <= List.length (issued a).
Proof.
  split; [ reflexivity | ].
  exact (requests_name_known_categories blank_page [ClickTab 7; ClickRefresh; ClickTab 2]
                                        eq_refl).
Defined.

(** X12: a click on the n-th category tab, at any point after the start,
    selects that category, marks its tab and no other as active, announces
    "Analyzing <label> trends..." in the normal colour, disables the refresh
    button, and leaves the summary, the pills and the cards that are shown
    as they are until an answer arrives. *)
Theorem tab_click_effect (p : Page) (events : list Event) (n : nat) (c : Category) :
  nth_error CATEGORIES n = Some c ->
  let a := run events (start p) in
  let p' := page (handle (ClickTab n) a) in
  selectedCategory p' = id c
  /\ map tab_category (active_tabs p') = [id c]
  /\ status_text p' = ("Analyzing " ++ label c ++ " trends...")%string
  /\ status_color p' = "#5d6b72"
  /\ refreshBtn_disabled p' = true
  /\ limitEl_value p' = limitEl_value (page a)
  /\ content p' = content (page a).
Proof.
  intros Hc a.
  assert (Ha : started (first_request p) a) by apply started_run, started_start.
  destruct Ha as [Htabs _].
  assert (Hin : In c CATEGORIES) by (eapply nth_error_In, Hc).
  assert (Htab : exists tab, nth_error (categoryTabsEl (page a)) n = Some tab
                             /\ tab_category tab = id c).
  { assert (H : nth_error (map tab_category (categoryTabsEl (page a))) n = Some (id c))
      by (rewrite Htabs; apply map_nth_error, Hc).
    rewrite nth_error_map in H.
    destruct (nth_error (categoryTabsEl (page a)) n) as [tab |]; [ | discriminate ].
    exists tab. split; [ reflexivity | ]. cbn [option_map] in H.
    injection H as H. exact H. }
  destruct Htab as [tab [Hnth Hcat]].
  cbn zeta. cbn [handle]. rewrite Hnth, Hcat.
  cbn [runAnalysis runAnalysis_begin on_page page]. unfold_page.
  destruct (CATEGORY_LABELS_known c Hin) as [Hlabel Hne].
  rewrite Hlabel. cbn [Js.or_else].
  apply String.eqb_neq in Hne. rewrite Hne.
  repeat split.
  unfold active_tabs. cbn [categoryTabsEl].
  simpl in Hin.
  repeat (destruct Hin as [<- | Hin]; [ reflexivity | ]). contradiction.
Qed.

Lemma tab_click_effect_witness :
  nth_error CATEGORIES 7 = Some {| id := "sports"; label := "Sports" |}
  /\ let a := run [Settle 0 (Response 200 (JsonObject good_payload))] (start blank_page) in
     let p' := page (handle (ClickTab 7) a) in
     selectedCategory p' = "sports"
     /\ map tab_category (active_tabs p') = ["sports"]
     /\ status_text p' = "Analyzing Sports trends..."
     /\ status_color p' = "#5d6b72"
     /\ refreshBtn_disabled p' = true
     /\ limitEl_value p' = limitEl_value (page a)
     /\ content p' = content (page a).
Proof.
  split; [ reflexivity | ].
  exact (tab_click_effect blank_page [Settle 0 (Response 200 (JsonObject good_payload))]
                          7 {| id := "sports"; label := "Sports" |} eq_refl).
Defined.

Lemma no_tab_keeps_category (events : list Event) (a : App) (category_text : string) :
  forallb no_tab_click events = true ->
  selectedCategory (page a) = category_text ->
  Forall (fun r => query_category r = encodeURIComponent category_text) (issued a) ->
  selectedCategory (page (run events a)) = category_text
  /\ Forall (fun r => query_category r = encodeURIComponent category_text)
            (issued (run events a)).
Proof.
  revert a. induction events as [| e events IH]; intros a He Hsel Hreq; cbn in *.
  - split; assumption.
  - apply andb_true_iff in He. destruct He as [He Hes].
    destruct e as [| n | value | n outcome]; try discriminate; cbn [handle].
    + destruct (refreshBtn_disabled (page a)); [ apply IH; assumption | ].
      apply IH; [ exact Hes | exact Hsel | ].
      cbn. apply Forall_app. split; [ exact Hreq | ].
      constructor; [ cbn; rewrite Hsel; reflexivity | constructor ].
    + apply IH; assumption.
    + destruct (nth_error (in_flight a) n); [ | apply IH; assumption ].
      apply IH; [ exact Hes | | exact Hreq ].
      cbn [page]. rewrite <- Hsel.
      exact (f_equal snd (runAnalysis_settle_controls outcome (page a))).
Qed.

(** X13: as long as no category tab is clicked, the refresh cycles are
    serialised: at most one request is in flight, the refresh button is
    disabled exactly while one is, the selected category stays what it was,
    and every request asks for that category. *)
Theorem refresh_button_serialises (p : Page) (events : list Event) :
  forallb no_tab_click events = true ->
  let a := run events (start p) in
  serialised a
  /\ List.length (in_flight a) <= 1
  /\ selectedCategory (page a) = selectedCategory p
  /\ Forall (fun r => query_category r = encodeURIComponent (selectedCategory p))
            (issued a).
Proof.
  intros He a.
  assert (Hs : serialised a) by apply serialised_without_tabs, He.
  split; [ exact Hs | ]. split.
  - destruct Hs as [[_ Hn] | [_ Hn]]; rewrite Hn; cbn; lia.
  - apply no_tab_keeps_category; [ exact He | reflexivity | ].
    cbn. constructor; [ reflexivity | constructor ].
Qed.

Lemma refresh_button_serialises_witness :
  forallb no_tab_click
          [ClickRefresh; Settle 0 (Response 200 (JsonObject good_payload)); ClickRefresh;
           ClickRefresh; EditLimit "5"] = true
  /\ let a := run [ClickRefresh; Settle 0 (Response 200 (JsonObject good_payload));
                   ClickRefresh; ClickRefresh; EditLimit "5"] (start blank_page) in
     serialised a
     /\ List.length (in_flight a) <= 1
     /\ selectedCategory (page a) = selectedCategory blank_page
     /\ Forall (fun r => query_category r = encodeURIComponent (selectedCategory blank_page))
               (issued a).
Proof.
  split; [ reflexivity | ].
  exact (refresh_button_serialises blank_page
           [ClickRefresh; Settle 0 (Response 200 (JsonObject good_payload)); ClickRefresh;
            ClickRefresh; EditLimit "5"] eq_refl).
Defined.

Lemma length_remove_nth {A : Type} (n : nat) (l : list A) (x : A) :
  nth_error l n = Some x -> List.length (remove_nth n l) = Nat.pred (List.length l).
Proof.
  revert n. induction l as [| y l IH]; intros n H.
  - destruct n; discriminate H.
  - destruct n as [| n]; cbn in *; [ reflexivity | ].
    rewrite (IH n H). destruct l; [ destruct n; discriminate H | reflexivity ].
Qed.

(** X14: when a request in flight settles, with whatever outcome, it alone
    leaves the requests in flight, the refresh button is enabled again (a
    click on it issues a request) even if other requests are still in
    flight, and the tabs, the limit and the selected category are
    untouched. *)
Theorem settle_reenables_refresh (a : App) (n : nat) (r : Request) (outcome : FetchOutcome) :
  nth_error (in_flight a) n = Some r ->
  let a' := handle (Settle n outcome) a in
  refreshBtn_disabled (page a') = false
  /\ in_flight a' = remove_nth n (in_flight a)
  /\ List.length (in_flight a') = Nat.pred (List.length (in_flight a))
  /\ issued a' = issued a
  /\ controls (page a') = controls (page a)
  /\ handle ClickRefresh a' = runAnalysis true a'.
Proof.
  intros Hnth. cbn zeta. cbn [handle]. rewrite Hnth. cbn [page in_flight issued].
  split; [ reflexivity | ]. split; [ reflexivity | ].
  split; [ apply (length_remove_nth n _ r Hnth) | ].
  split; [ reflexivity | ].
  split; [ apply runAnalysis_settle_controls | reflexivity ].
Qed.

Lemma settle_reenables_refresh_witness :
  nth_error (in_flight (handle (ClickTab 7) (start blank_page))) 0
  = Some (first_request blank_page)
  /\ let a' := handle (Settle 0 (Rejected "Failed to fetch"))
                      (handle (ClickTab 7) (start blank_page)) in
     refreshBtn_disabled (page a') = false
     /\ in_flight a' = remove_nth 0 (in_flight (handle (ClickTab 7) (start blank_page)))
     /\ List.length (in_flight a')
        = Nat.pred (List.length (in_flight (handle (ClickTab 7) (start blank_page))))
     /\ issued a' = issued (handle (ClickTab 7) (start blank_page))
     /\ controls (page a') = controls (page (handle (ClickTab 7) (start blank_page)))
     /\ handle ClickRefresh a' = runAnalysis true a'.
Proof.
  split; [ reflexivity | ].
  exact (settle_reenables_refresh (handle (ClickTab 7) (start blank_page)) 0
           (first_request blank_page) (Rejected "Failed to fetch") eq_refl).
Defined.

(** ** A refresh that succeeds *)

Lemma summarize_received (rs : list AnalysisResult) :
  summarize (map received rs) = summarize rs.
Proof.
  unfold summarize, count_verdict, sum_fake. rewrite length_map.
  assert (Hcount : forall v,
             List.length (filter (fun r : JsonResult => verdict r =? v) (map received rs))
             = List.length (filter (fun r : AnalysisResult => verdict r =? v) rs)).
  { intros v. induction rs as [| r rs IH]; [ reflexivity | ].
    cbn [map filter]. change (verdict (received r)) with (verdict r).
    destruct (verdict r =? v); cbn [List.length]; rewrite IH; reflexivity. }
  assert (Hsum : forall acc,
             fold_left (fun sum (r : JsonResult) => PrimFloat.add sum (fake_probability r))
                       (map received rs) acc
             = fold_left (fun sum (r : AnalysisResult) => PrimFloat.add sum (fake_probability r))
                         rs acc).
  { clear Hcount. induction rs as [| r rs IH]; intros acc; [ reflexivity | apply IH ]. }
  rewrite !Hcount, Hsum. reflexivity.
Qed.

(** The page after an answer with a success status and a payload of
    AnalysisResults. *)
Lemma settle_well_shaped
      (status : nat) (rs : list AnalysisResult)
      (health : option (list (string * string))) (generated : string) (p : Page) :
  response_ok status = true ->
  forall shaped,
    or_empty shaped = map received rs ->
    runAnalysis_settle
      (Response status
         (JsonObject {| results := shaped;
                        source_health := health;
                        generated_at := generated |})) p
    = with_disabled false
        (setStatus ("Updated at " ++ generated ++ ".") false
           (with_results
              (if selectedCategory p =? "all" then sections rs
               else map (fun r => CardNode (card r)) rs)
              (with_pills (map pill_of (summarizeHealth (or_empty health)))
                 (with_summary (summarize rs) p)))).
Proof.
  intros Hok shaped Hshaped. unfold runAnalysis_settle, try_block. rewrite Hok.
  cbn [negb results source_health generated_at]. rewrite Hshaped.
  unfold bind at 1. unfold write at 1. unfold bind at 1. unfold write at 1.
  unfold bind at 1.
  unfold renderSummary. rewrite summarize_received, renderSourceHealth_pills.
  destruct (String.eqb_spec (selectedCategory p) "all") as [Hall | Hsel].
  - rewrite (renderCards_all rs); [ reflexivity | exact Hall ].
  - rewrite (renderCards_single rs); [ reflexivity | exact Hsel ].
Qed.

(** X15: an answer with a success status and a payload of AnalysisResults
    is rendered whole: the summary is that of the results, the pills are
    those of [source_health] (none when it is missing), the cards are the
    sections of the "all" view or else one bare card per result, the status
    line reads "Updated at <time>." in the normal colour, and the refresh
    button is enabled; nothing is thrown. *)
Theorem successful_refresh_renders
        (status : nat) (rs : list AnalysisResult)
        (health : option (list (string * string))) (generated : string) (p : Page) :
  response_ok status = true ->
  runAnalysis_settle
    (Response status
       (JsonObject {| results := Some (map received rs);
                      source_health := health;
                      generated_at := generated |})) p
  = with_disabled false
      (setStatus ("Updated at " ++ generated ++ ".") false
         (with_results
            (if selectedCategory p =? "all" then sections rs
             else map (fun r => CardNode (card r)) rs)
            (with_pills (map pill_of (summarizeHealth (or_empty health)))
               (with_summary (summarize rs) p)))).
Proof.
  intros Hok. apply settle_well_shaped; [ exact Hok | reflexivity ].
Qed.

Lemma successful_refresh_renders_witness :
  response_ok 200 = true
  /\ runAnalysis_settle
       (Response 200
          (JsonObject {| results := Some (map received [sports_item; local_item]);
                         source_health := Some [("newsapi", "ok")];
                         generated_at := "1/2/2026, 10:00:00 AM" |})) blank_page
     = with_disabled false
         (setStatus "Updated at 1/2/2026, 10:00:00 AM." false
            (with_results
               (if selectedCategory blank_page =? "all" then sections [sports_item; local_item]
                else map (fun r => CardNode (card r)) [sports_item; local_item])
               (with_pills (map pill_of (summarizeHealth (or_empty (Some [("newsapi", "ok")]))))
                  (with_summary (summarize [sports_item; local_item]) blank_page)))).
Proof.
  split; [ reflexivity | ].
  exact (successful_refresh_renders 200 [sports_item; local_item]
           (Some [("newsapi", "ok")]) "1/2/2026, 10:00:00 AM" blank_page eq_refl).
Defined.

(** X16: a payload that has neither [results] nor [source_health] is no
    failure: with a success status it leaves an empty dashboard, the
    summary at zero, no pill and no card, and the status line reads
    "Updated at <time>.". *)
Theorem missing_fields_render_empty (status : nat) (generated : string) (p : Page) :
  response_ok status = true ->
  runAnalysis_settle
    (Response status
       (JsonObject {| results := None; source_health := None; generated_at := generated |}))
    p
  = with_disabled false
      (setStatus ("Updated at " ++ generated ++ ".") false
         (with_results []
            (with_pills []
               (with_summary {| total := 0; misleading_count := 0; real_count := 0;
                                avg_fake_probability := 0 |} p)))).
Proof.
  intros Hok.
  rewrite (settle_well_shaped status [] None generated p Hok None eq_refl).
  destruct (selectedCategory p =? "all"); reflexivity.
Qed.

Lemma missing_fields_render_empty_witness :
  response_ok 200 = true
  /\ runAnalysis_settle
       (Response 200
          (JsonObject {| results := None; source_health := None;
                         generated_at := "1/2/2026" |}))
       loaded_page
     = with_disabled false
         (setStatus "Updated at 1/2/2026." false
            (with_results []
               (with_pills []
                  (with_summary {| total := 0; misleading_count := 0; real_count := 0;
                                   avg_fake_probability := 0 |} loaded_page)))).
Proof.
  split; [ reflexivity | ].
  exact (missing_fields_render_empty 200 "1/2/2026" loaded_page eq_refl).
Defined.

(** ** What a refresh shows depends on its payload only *)

Section Agreement.

Lemma agrees_pure {A : Type} (m : Script A) (c : Completion A) :
  (forall p, m p = (c, p)) -> agrees m.
Proof. intros H p q Hpq. rewrite !H. split; [ reflexivity | exact Hpq ]. Qed.

Lemma agrees_bind {A B : Type} (m : Script A) (k : A -> Script B) :
  agrees m -> (forall a, agrees (k a)) -> agrees (bind m k).
Proof.
  intros Hm Hk p q Hpq. unfold bind.
  destruct (Hm p q Hpq) as [Hfst Hsnd].
  destruct (m p) as [[a | message] p'], (m q) as [[a' | message'] q'];
    cbn [fst snd] in *; try discriminate Hfst.
  - injection Hfst as <-. apply Hk, Hsnd.
  - injection Hfst as <-. split; [ reflexivity | exact Hsnd ].
Qed.

Lemma agrees_write (f : Page -> Page) :
  (forall p q, same_view p q -> same_view (f p) (f q)) -> agrees (write f).
Proof. intros H p q Hpq. split; [ reflexivity | apply H, Hpq ]. Qed.

Lemma agrees_forEach {A : Type} (xs : list A) (body : A -> Script unit) :
  (forall x, agrees (body x)) -> agrees (forEach xs body).
Proof.
  intros H. induction xs as [| x xs IH]; cbn [forEach].
  - apply (agrees_pure _ (Normal tt)). reflexivity.
  - apply agrees_bind; [ apply H | intros _; exact IH ].
Qed.

Lemma agrees_foldM {A S : Type} (body : S -> A -> Script S) (xs : list A) (s : S) :
  (forall s x, agrees (body s x)) -> agrees (foldM body xs s).
Proof.
  intros H. revert s. induction xs as [| x xs IH]; intros s; cbn [foldM].
  - apply (agrees_pure _ (Normal s)). reflexivity.
  - apply agrees_bind; [ apply H | intros s'; apply IH ].
Qed.

Lemma agrees_mapM {A B : Type} (build : A -> Script B) (xs : list A) :
  (forall x, agrees (build x)) -> agrees (mapM build xs).
Proof.
  intros H. induction xs as [| x xs IH]; cbn [mapM].
  - apply (agrees_pure _ (Normal [])). reflexivity.
  - apply agrees_bind; [ apply H | intros y ].
    apply agrees_bind; [ exact IH | intros ys ].
    apply (agrees_pure _ (Normal (y :: ys))). reflexivity.
Qed.

Lemma agrees_trend_of (item : JsonResult) (property : string) :
  agrees (trend_of item property).
Proof.
  unfold trend_of. destruct (trend item) as [t |].
  - apply (agrees_pure _ (Normal t)). reflexivity.
  - eapply agrees_pure. reflexivity.
Qed.

Lemma agrees_buildCard (item : JsonResult) : agrees (buildCard item).
Proof.
  unfold buildCard. apply agrees_bind; [ apply agrees_trend_of | intros t ].
  apply (agrees_pure _ (Normal (card_of t item))). reflexivity.
Qed.

Lemma agrees_appendResult (n : Node) : agrees (appendResult n).
Proof.
  unfold appendResult. apply agrees_write. intros p q [Hsel Hcontent].
  split; [ exact Hsel | ]. unfold content in *. cbn [summaryEls sourceHealthEl resultsEl
    with_results]. injection Hcontent as Hs Hp Hr. rewrite Hs, Hp, Hr. reflexivity.
Qed.

Lemma agrees_read_selected : agrees (read selectedCategory).
Proof.
  intros p q Hpq. unfold read. cbn [fst snd].
  destruct Hpq as [Hsel Hcontent]. rewrite Hsel. split; [ reflexivity | ].
  split; assumption.
Qed.

Lemma after_clearResults (rest : Script unit) (p q : Page) :
  agrees rest ->
  selectedCategory p = selectedCategory q ->
  summaryEls p = summaryEls q ->
  sourceHealthEl p = sourceHealthEl q ->
  fst ((write clearResults ;; rest) p) = fst ((write clearResults ;; rest) q)
  /\ same_view (snd ((write clearResults ;; rest) p)) (snd ((write clearResults ;; rest) q)).
Proof.
  intros Hrest Hsel Hsum Hpills. unfold bind, write.
  apply Hrest. split; [ exact Hsel | ].
  unfold content, clearResults. cbn [summaryEls sourceHealthEl resultsEl with_results].
  rewrite Hsum, Hpills. reflexivity.
Qed.

(** Once the previous cards are cleared, [renderCards] goes by the selected
    category and its argument alone. *)
Lemma renderCards_agrees (results : list JsonResult) (p q : Page) :
  selectedCategory p = selectedCategory q ->
  summaryEls p = summaryEls q ->
  sourceHealthEl p = sourceHealthEl q ->
  fst (renderCards results p) = fst (renderCards results q)
  /\ same_view (snd (renderCards results p)) (snd (renderCards results q)).
Proof.
  unfold renderCards. apply after_clearResults.
  apply agrees_bind; [ apply agrees_read_selected | intros selected ].
  destruct (selected =? "all").
  - apply agrees_bind.
    + apply agrees_foldM. intros groups item. unfold group_item.
      apply agrees_bind; [ apply agrees_trend_of | intros t ].
      apply (agrees_pure _ (Normal (group_push groups (category_key t) item))). reflexivity.
    + intros groups. apply agrees_forEach. intros c. unfold append_section.
      destruct (Nat.eqb _ 0); [ apply (agrees_pure _ (Normal tt)); reflexivity | ].
      apply agrees_bind; [ apply agrees_mapM, agrees_buildCard | intros cards ].
      apply agrees_appendResult.
  - apply agrees_forEach. intros item. unfold append_card.
    apply agrees_bind; [ apply agrees_buildCard | intros c; apply agrees_appendResult ].
Qed.

End Agreement.

(** The page after an answer with a success status and a [Payload]. *)
Lemma settle_object (status : nat) (data : Payload) (p : Page) :
  response_ok status = true ->
  runAnalysis_settle (Response status (JsonObject data)) p
  = with_disabled false
      match renderCards (or_empty (results data))
                        (renderSourceHealth (or_empty (source_health data))
                           (renderSummary (or_empty (results data)) p)) with
      | (Normal _, p') => setStatus ("Updated at " ++ generated_at data ++ ".") false p'
      | (Throw message, p') => setStatus ("Failed to load analysis: " ++ message) true p'
      end.
Proof.
  intros Hok. unfold runAnalysis_settle, try_block. rewrite Hok. cbn [negb].
  unfold bind, write.
  destruct (renderCards _ _) as [[[] | message] p']; reflexivity.
Qed.

(** X17: nothing accumulates from one refresh to the next.  Take an
    answer with a success status whose body is a [Payload]: [results] is
    absent or an array of result objects, each complete except that its
    [trend] may be missing, and [source_health] is absent or an object of
    texts.  Once it has been
    handled, the summary, the pills, the cards and the status line depend
    on that payload and on the selected category only, not on what the page
    showed before; this covers a result without [trend], where rendering
    stops part-way.  Bodies a [Payload] cannot hold ([results] that is no
    array, a [null] element) are outside this statement. *)
Theorem refresh_shows_only_its_payload
        (status : nat) (data : Payload) (p q : Page) :
  response_ok status = true ->
  selectedCategory p = selectedCategory q ->
  content (runAnalysis_settle (Response status (JsonObject data)) p)
  = content (runAnalysis_settle (Response status (JsonObject data)) q)
  /\ status_line (runAnalysis_settle (Response status (JsonObject data)) p)
     = status_line (runAnalysis_settle (Response status (JsonObject data)) q).
Proof.
  intros Hok Hsel. rewrite !settle_object by exact Hok.
  set (p2 := renderSourceHealth _ (renderSummary _ p)).
  set (q2 := renderSourceHealth _ (renderSummary _ q)).
  assert (H : fst (renderCards (or_empty (results data)) p2)
              = fst (renderCards (or_empty (results data)) q2)
              /\ same_view (snd (renderCards (or_empty (results data)) p2))
                           (snd (renderCards (or_empty (results data)) q2))).
  { apply renderCards_agrees; unfold p2, q2; rewrite !renderSourceHealth_pills.
    - exact Hsel.
    - reflexivity.
    - reflexivity. }
  destruct H as [Hfst [_ Hcontent]].
  destruct (renderCards (or_empty (results data)) p2) as [[[] | message] p3],
           (renderCards (or_empty (results data)) q2) as [[[] | message'] q3];
    cbn [fst snd] in *; try discriminate Hfst.
  - split; [ exact Hcontent | reflexivity ].
  - injection Hfst as <-. split; [ exact Hcontent | reflexivity ].
Qed.

Lemma refresh_shows_only_its_payload_witness :
  response_ok 200 = true
  /\ selectedCategory blank_page = selectedCategory loaded_page
  /\ content (runAnalysis_settle (Response 200 (JsonObject malformed_payload)) blank_page)
     = content (runAnalysis_settle (Response 200 (JsonObject malformed_payload)) loaded_page)
  /\ status_line (runAnalysis_settle (Response 200 (JsonObject malformed_payload)) blank_page)
     = status_line
         (runAnalysis_settle (Response 200 (JsonObject malformed_payload)) loaded_page).
Proof.
  split; [ reflexivity | ]. split; [ reflexivity | ].
  exact (refresh_shows_only_its_payload 200 malformed_payload blank_page loaded_page
                                        eq_refl eq_refl).
Defined.


(** ** The limit: printing and reading back a number *)

Lemma digits_string_of_uint (d : Decimal.uint) (acc len : nat) :
  JsNumber.digits 10 (Z.of_nat acc) len (NilEmpty.string_of_uint d)
  = (Z.of_nat (Nat.of_uint_acc d acc),
     len + String.length (NilEmpty.string_of_uint d), EmptyString).
Proof.
  revert acc len.
  induction d as [| d IH | d IH | d IH | d IH | d IH | d IH | d IH | d IH | d IH | d IH];
    intros acc len;
    cbn [NilEmpty.string_of_uint Nat.of_uint_acc String.length JsNumber.digits];
    [ rewrite Nat.add_0_r; reflexivity | .. ];
    match goal with
    | |- context [JsNumber.digit 10 ?c] =>
        let v := eval vm_compute in (JsNumber.digit 10 c) in
        change (JsNumber.digit 10 c) with v
    end; cbv iota beta;
    match goal with
    | |- JsNumber.digits 10 ?z _ _ = (Z.of_nat (Nat.of_uint_acc _ ?m), _, _) =>
        replace z with (Z.of_nat m) by (rewrite ?Nat.tail_mul_spec; lia)
    end;
    rewrite IH; f_equal; f_equal; lia.
Qed.

Lemma decimal_digits_only (d : Decimal.uint) :
  Forall (fun c => decimal_digit c = true)
         (list_ascii_of_string (NilEmpty.string_of_uint d)).
Proof.
  induction d; cbn [NilEmpty.string_of_uint list_ascii_of_string];
    constructor; try reflexivity; assumption.
Qed.

Lemma decimal_not_empty (n : nat) : decimal n <> "".
Proof.
  unfold decimal. intros H.
  destruct (Nat.to_uint n) as [| d | d | d | d | d | d | d | d | d | d] eqn:E;
    try discriminate H.
  assert (Hn : n = 0).
  { rewrite <- (DecimalNat.Unsigned.of_to n), E. reflexivity. }
  subst n. discriminate E.
Qed.

Lemma strip_one_digit (c : ascii) (t : string) :
  decimal_digit c = true ->
  JsNumber.strip_one JsNumber.StrWhiteSpaceChar (String c t) = None
  /\ JsNumber.strip_one (map JsNumber.rev_string JsNumber.StrWhiteSpaceChar) (String c t)
     = None.
Proof.
  unfold decimal_digit. cbn [existsb]. intros H.
  repeat (apply orb_true_iff in H; destruct H as [H | H];
          [ apply Ascii.eqb_eq in H; subst c; split; reflexivity | ]).
  discriminate H.
Qed.

Lemma strip_digit (fuel : nat) (c : ascii) (t : string) :
  decimal_digit c = true ->
  JsNumber.strip fuel JsNumber.StrWhiteSpaceChar (String c t) = String c t
  /\ JsNumber.strip fuel (map JsNumber.rev_string JsNumber.StrWhiteSpaceChar) (String c t)
     = String c t.
Proof.
  intros H. destruct (strip_one_digit c t H) as [H1 H2].
  destruct fuel; cbn [JsNumber.strip]; [ split; reflexivity | ].
  rewrite H1, H2. split; reflexivity.
Qed.

Lemma rev_string_involutive (s : string) : JsNumber.rev_string (JsNumber.rev_string s) = s.
Proof.
  unfold JsNumber.rev_string.
  rewrite list_ascii_of_string_of_list_ascii, rev_involutive.
  apply string_of_list_ascii_of_string.
Qed.

(** White space is trimmed from neither end of a text of digits. *)
Lemma trim_digits (s : string) :
  s <> "" ->
  Forall (fun c => decimal_digit c = true) (list_ascii_of_string s) ->
  JsNumber.trim s = s.
Proof.
  intros Hne Hdigits. unfold JsNumber.trim.
  destruct s as [| c t]; [ contradiction | ].
  inversion Hdigits as [| c' l Hc Ht]; subst.
  destruct (strip_digit (String.length (String c t)) c t Hc) as [H1 _]. rewrite H1.
  assert (Hrev : exists c' t', JsNumber.rev_string (String c t) = String c' t'
                               /\ decimal_digit c' = true).
  { unfold JsNumber.rev_string.
    assert (Hall : Forall (fun c => decimal_digit c = true)
                          (rev (list_ascii_of_string (String c t))))
      by (apply Forall_rev, Hdigits).
    destruct (rev (list_ascii_of_string (String c t))) as [| c' l'] eqn:E.
    - apply (f_equal (@List.length ascii)) in E. rewrite length_rev in E. discriminate E.
    - exists c', (string_of_list_ascii l'). split; [ reflexivity | ].
      inversion Hall; assumption. }
  destruct Hrev as [c' [t' [Hrev Hc']]]. rewrite Hrev.
  destruct (strip_digit (String.length (String c t)) c' t' Hc') as [_ H2]. rewrite H2.
  rewrite <- Hrev. apply rev_string_involutive.
Qed.

Lemma numeric_literal_decimal (n : nat) :
  JsNumber.numeric_literal (decimal n)
  = Some (JsNumber.MV_decimal false (Z.of_nat n) 0).
Proof.
  unfold JsNumber.numeric_literal.
  rewrite trim_digits; [ | apply decimal_not_empty | apply decimal_digits_only ].
  pose proof (decimal_not_empty n) as Hne. apply String.eqb_neq in Hne. rewrite Hne.
  pose proof (digits_string_of_uint (Nat.to_uint n) 0 0) as Hd.
  change (Nat.of_uint_acc (Nat.to_uint n) 0) with (Nat.of_uint (Nat.to_uint n)) in Hd.
  rewrite DecimalNat.Unsigned.of_to in Hd. cbn [Z.of_nat Nat.add] in Hd.
  apply String.eqb_neq in Hne. unfold decimal in *.
  assert (Hunsigned : JsNumber.unsigned_decimal false
                        (NilEmpty.string_of_uint (Nat.to_uint n))
                      = Some (JsNumber.MV_decimal false (Z.of_nat n) 0)).
  { unfold JsNumber.unsigned_decimal.
    assert (Hinf : (NilEmpty.string_of_uint (Nat.to_uint n) =? "Infinity") = false).
    { destruct (Nat.to_uint n); reflexivity. }
    rewrite Hinf, Hd.
    destruct (String.length (NilEmpty.string_of_uint (Nat.to_uint n))) eqn:Hlen.
    - destruct (NilEmpty.string_of_uint (Nat.to_uint n)); [ contradiction | discriminate ].
    - reflexivity. }
  destruct (Nat.to_uint n) as [| d | d | d | d | d | d | d | d | d | d];
    try exact Hunsigned; try contradiction.
  destruct d; exact Hunsigned.
Qed.

Lemma same_spec_float_eq (x y : spec_float) : same_spec_float x y = true -> x = y.
Proof.
  destruct x, y; cbn; try discriminate; intros H.
  - apply Bool.eqb_prop in H. congruence.
  - apply Bool.eqb_prop in H. congruence.
  - reflexivity.
  - apply andb_true_iff in H. destruct H as [H He].
    apply andb_true_iff in H. destruct H as [Hs Hm].
    apply Bool.eqb_prop in Hs. apply Pos.eqb_eq in Hm. apply Z.eqb_eq in He. congruence.
Qed.

Lemma small_limits_exact (n : nat) :
  n <= 1000 -> JsNumber.round (JsNumber.MV_decimal false (Z.of_nat n) 0) = Js.of_length n.
Proof.
  intros Hn. apply Prim2SF_inj, same_spec_float_eq.
  assert (Hall : forallb reads_exactly (seq 0 1001) = true) by (vm_compute; reflexivity).
  rewrite forallb_forall in Hall. apply (Hall n). apply in_seq. lia.
Qed.

(** X19: when the limit control holds the decimal digits of a natural
    number [n], [Number] reads back that number: the text is the numeric
    literal [n], the limit of the request is [n] rounded to binary64, and
    for [n] up to 1000 it is [n] exactly; "0" gives 0, not the default. *)
Theorem limit_reads_back_decimal (n : nat) (forceRefresh : bool) (p : Page) :
  limitEl_value p = decimal n ->
  JsNumber.numeric_literal (limitEl_value p)
  = Some (JsNumber.MV_decimal false (Z.of_nat n) 0)
  /\ query_limit (snd (runAnalysis_begin forceRefresh p))
     = JsNumber.round (JsNumber.MV_decimal false (Z.of_nat n) 0)
  /\ (n <= 1000 -> query_limit (snd (runAnalysis_begin forceRefresh p)) = Js.of_length n).
Proof.
  intros Hvalue.
  assert (Hlimit : query_limit (snd (runAnalysis_begin forceRefresh p))
                   = JsNumber.round (JsNumber.MV_decimal false (Z.of_nat n) 0)).
  { cbn [runAnalysis_begin snd query_limit]. unfold limit_of, JsNumber.StringToNumber.
    rewrite Hvalue, numeric_literal_decimal.
    pose proof (decimal_not_empty n) as Hne. apply String.eqb_neq in Hne.
    rewrite Hne. reflexivity. }
  split; [ rewrite Hvalue; apply numeric_literal_decimal | ].
  split; [ exact Hlimit | ].
  intros Hn. rewrite Hlimit. apply small_limits_exact, Hn.
Qed.

Lemma limit_reads_back_decimal_witness :
  limitEl_value (with_limit "50" blank_page) = decimal 50
  /\ JsNumber.numeric_literal (limitEl_value (with_limit "50" blank_page))
     = Some (JsNumber.MV_decimal false (Z.of_nat 50) 0)
  /\ query_limit (snd (runAnalysis_begin true (with_limit "50" blank_page)))
     = JsNumber.round (JsNumber.MV_decimal false (Z.of_nat 50) 0)
  /\ (50 <= 1000 ->
      query_limit (snd (runAnalysis_begin true (with_limit "50" blank_page)))
      = Js.of_length 50).
Proof.
  split; [ reflexivity | ].
  exact (limit_reads_back_decimal 50 true (with_limit "50" blank_page) eq_refl).
Defined.

(** ** The category in the request *)

Lemma hex_digit_unreserved (k : nat) : k < 16 -> unreserved (hex_digit k) = true.
Proof.
  intros Hk. do 16 (destruct k as [| k]; [ reflexivity | ]). lia.
Qed.

Lemma encodeURIComponent_chars (s : string) :
  Forall (fun c => url_char c = true) (list_ascii_of_string (encodeURIComponent s)).
Proof.
  induction s as [| a s IH]; cbn [encodeURIComponent]; [ constructor | ].
  destruct (unreserved a) eqn:Ha.
  - cbn [String.append list_ascii_of_string]. constructor; [ | exact IH ].
    unfold url_char. rewrite Ha. reflexivity.
  - cbn [String.append list_ascii_of_string].
    pose proof (nat_ascii_bounded a) as Hbound.
    constructor; [ reflexivity | ].
    constructor.
    { unfold url_char. rewrite hex_digit_unreserved; [ reflexivity | ].
      apply Nat.Div0.div_lt_upper_bound. exact Hbound. }
    constructor; [ | exact IH ].
    unfold url_char. rewrite hex_digit_unreserved; [ reflexivity | ].
    apply Nat.mod_upper_bound. discriminate.
Qed.

(** X20: whatever category is selected, the category of the request is
    made of unreserved characters and [%] escapes only; it holds no [&],
    [=], [#], [?], [/] or space, so it cannot end the parameter or add
    another one. *)
Theorem request_category_is_escaped (forceRefresh : bool) (p : Page) :
  Forall (fun c => url_char c = true
                   /\ ~ In c ["&"; "="; "#"; "?"; "/"; " "; "+"]%char)
         (list_ascii_of_string (query_category (snd (runAnalysis_begin forceRefresh p)))).
Proof.
  cbn [runAnalysis_begin snd query_category].
  eapply Forall_impl; [ | apply encodeURIComponent_chars ].
  intros c Hc. split; [ exact Hc | ].
  intros Hin. cbn [In] in Hin.
  repeat (destruct Hin as [<- | Hin]; [ discriminate Hc | ]). contradiction.
Qed.

(** ** [renderCards] on a result without [trend] *)

Lemma forEach_app {A : Type} (xs ys : list A) (body : A -> Script unit) (p : Page) :
  forEach (xs ++ ys) body p
  = match forEach xs body p with
    | (Normal _, p') => forEach ys body p'
    | (Throw message, p') => (Throw message, p')
    end.
Proof.
  revert p. induction xs as [| x xs IH]; intros p; cbn [app forEach].
  - reflexivity.
  - unfold bind at 1 2. destruct (body x p) as [[[] | message] p']; [ apply IH | reflexivity ].
Qed.

Lemma foldM_app {A S : Type} (body : S -> A -> Script S) (xs ys : list A) (s : S) (p : Page) :
  foldM body (xs ++ ys) s p
  = match foldM body xs s p with
    | (Normal s', p') => foldM body ys s' p'
    | (Throw message, p') => (Throw message, p')
    end.
Proof.
  revert s p. induction xs as [| x xs IH]; intros s p; cbn [app foldM].
  - reflexivity.
  - unfold bind at 1 2. destruct (body s x p) as [[s' | message] p']; [ apply IH | reflexivity ].
Qed.

(** X21: a result without [trend] stops [renderCards] with a TypeError.  In
    a single-category view the cards of the results before it are on the
    page and those after it are not; in the "all" view the error comes
    while grouping, so no section is shown at all.  Either way the
    previous cards are gone. *)
Theorem trendless_result_stops_rendering
        (before : list AnalysisResult) (bad : JsonResult) (rest : list JsonResult) (p : Page) :
  trend bad = None ->
  renderCards (map received before ++ bad :: rest) p
  = if selectedCategory p =? "all"
    then (Throw (TypeError_reading "undefined" "category"), with_results [] p)
    else (Throw (TypeError_reading "undefined" "platform"),
          with_results (map (fun r => CardNode (card r)) before) p).
Proof.
  intros Hbad. unfold renderCards.
  unfold bind at 1. unfold write at 1. unfold bind at 1. unfold read at 1.
  change (selectedCategory (clearResults p)) with (selectedCategory p).
  destruct (selectedCategory p =? "all").
  - unfold bind at 1. rewrite foldM_app, grouping_received.
    cbn [foldM]. unfold bind at 1. unfold group_item at 1. unfold bind at 1.
    unfold trend_of. rewrite Hbad. reflexivity.
  - rewrite forEach_app, forEach_flat. cbn [forEach].
    unfold bind at 1. unfold append_card at 1. unfold bind at 1.
    unfold buildCard at 1. unfold bind at 1. unfold trend_of. rewrite Hbad.
    reflexivity.
Qed.

Lemma trendless_result_stops_rendering_witness :
  trend trendless_item = None
  /\ renderCards (map received [sports_item] ++ trendless_item :: [received local_item])
                 (with_selected "sports" loaded_page)
     = if selectedCategory (with_selected "sports" loaded_page) =? "all"
       then (Throw (TypeError_reading "undefined" "category"),
             with_results [] (with_selected "sports" loaded_page))
       else (Throw (TypeError_reading "undefined" "platform"),
             with_results (map (fun r => CardNode (card r)) [sports_item])
                          (with_selected "sports" loaded_page)).
Proof.
  split; [ reflexivity | ].
  exact (trendless_result_stops_rendering [sports_item] trendless_item
           [received local_item] (with_selected "sports" loaded_page) eq_refl).
Defined.
